(** * Gramps: the [Attribute] record and the citation display tab

    A shallow embedding of
    - [src/gen/lib/attribute.py] (class [Attribute]), and
    - [gramps/gui/editors/displaytabs/citationembedlist.py]
      (class [CitationEmbedList]),
    together with the properties their specification states about them. *)

From Equations Require Import Equations.
From stdpp Require Import gmap strings list.

Open Scope string_scope.
Open Scope list_scope.

(** ** Python values, exceptions and the object store *)

(** The serialized form of an object is built from plain Python data. *)
#[warnings="-register-all"] Inductive pyval : Type :=
| PyNone
| PyBool (b : bool)
| PyInt (n : Z)
| PyStr (s : string)
| PyTuple (items : list pyval)
| PyList (items : list pyval).

(** The exceptions the two modules raise or let through. *)
Inductive exn : Type :=
| TypeError
| ValueError (msg : string)
| AttributeError
| WindowActiveError
| OtherError (name : string).

(** Outcome of a call: it returns a value or raises. *)
Inductive outcome (A : Type) : Type :=
| Ret (a : A)
| Raise (e : exn).
Arguments Ret {A} a.
Arguments Raise {A} e.

Definition raises {A} (o : outcome A) : Prop :=
  match o with Raise _ => True | Ret _ => False end.

(** The characters of a string, each as a string of length one: what
    iterating over a Python [str] yields. *)
Fixpoint chars (s : string) : list pyval :=
  match s with
  | EmptyString => []
  | String c s' => PyStr (String c EmptyString) :: chars s'
  end.

(** Iteration: tuples, lists and strings are iterable, the other values
    are not. *)
Definition py_iter (v : pyval) : option (list pyval) :=
  match v with
  | PyTuple items | PyList items => Some items
  | PyStr s => Some (chars s)
  | PyNone | PyBool _ | PyInt _ => None
  end.

(** [(a, b, c, d, e) = data]: the right-hand side is iterated and must
    yield exactly five items; nothing is assigned otherwise.  A value that
    cannot be iterated gives a [TypeError], a wrong count a [ValueError]
    (the interpreter's message is shortened here). *)
Definition unpack5 (data : pyval)
  : outcome (pyval * pyval * pyval * pyval * pyval) :=
  match py_iter data with
  | None => Raise TypeError
  | Some [a; b; c; d; e] => Ret (a, b, c, d, e)
  | Some items =>
      if decide (length items < 5)%nat
      then Raise (ValueError "not enough values to unpack")
      else Raise (ValueError "too many values to unpack")
  end.

(** ** Calls

    A call threads a state and may raise; the state reached when the
    exception left the call is kept, as Python keeps the mutations made
    before a [raise]. *)
Definition M (St A : Type) : Type := St -> outcome A * St.

Definition ret {St A} (a : A) : M St A := fun s => (Ret a, s).
Definition raise {St A} (e : exn) : M St A := fun s => (Raise e, s).
Definition bind {St A B} (k : A -> M St B) (m : M St A) : M St B :=
  fun s => match m s with
           | (Ret a, s') => k a s'
           | (Raise e, s') => (Raise e, s')
           end.
Definition lift {St A} (o : outcome A) : M St A := fun s => (o, s).

#[global] Instance M_ret {St} : MRet (M St) := @ret St.
#[global] Instance M_bind {St} : MBind (M St) := @bind St.

(** [try: body except WindowActiveError: handler]; any other exception
    goes through. *)
Definition try_except_WindowActiveError {St A}
    (body handler : M St A) : M St A :=
  fun s => match body s with
           | (Raise WindowActiveError, s') => handler s'
           | r => r
           end.

(** ** Attribute *)

Module Attribute.

(** Object identities. *)
Definition loc := positive.

(** The mixin base classes [PrivacyBase], [SourceBase] and [NoteBase] are
    imported by [attribute.py]; each owns one slice of the object's state
    and brings its own constructor ([__init__(self, source)], with [None]
    for no source) and its own [serialize]/[unserialize] pair. *)
Class BaseComponent (St : Type) : Type := {
  base_init : option St -> St;
  base_serialize : St -> pyval;
  base_unserialize : St -> pyval -> outcome St
}.

(** [AttributeType], imported as well: the default constructor
    [AttributeType()], [serialize], [unserialize] and [set]. *)
Class GrampsType (T : Type) : Type := {
  type_new : T;
  type_serialize : T -> pyval;
  type_unserialize : T -> pyval -> outcome T;
  type_set : T -> pyval -> outcome T
}.

(** A component is faithful when its copy constructor reproduces the state
    it copies and its [unserialize] inverts its [serialize], whatever the
    state of the receiver. *)
Class BaseFaithful (St : Type) `{BaseComponent St} : Prop := {
  base_copy : forall st : St, base_init (Some st) = st;
  base_roundtrip :
    forall st x : St, base_unserialize st (base_serialize x) = Ret x
}.

Class TypeFaithful (T : Type) `{GrampsType T} : Prop := {
  type_roundtrip :
    forall t x : T, type_unserialize t (type_serialize x) = Ret x
}.

Section WithComponents.

Context {P S N T : Type}.
Context {PrivacyBase : BaseComponent P}.
Context {SourceBase : BaseComponent S}.
Context {NoteBase : BaseComponent N}.
Context {AttributeType : GrampsType T}.

(** The instance attributes of an [Attribute].  [type] is a reference: the
    [AttributeType] object is shared by every [Attribute] that was given the
    same reference. *)
Record attribute : Type := {
  private : P;
  source_list : S;
  note_list : N;
  type : loc;
  value : pyval
}.

Inductive obj : Type :=
| OAttribute (a : attribute)
| OAttributeType (t : T).

Abbreviation heap := (gmap loc obj).

Definition alloc (o : obj) : M heap loc :=
  fun h => let l := fresh (dom h) in (Ret l, <[l := o]> h).

Definition get_attribute (l : loc) : M heap attribute :=
  fun h => match h !! l with
           | Some (OAttribute a) => (Ret a, h)
           | _ => (Raise AttributeError, h)
           end.

Definition get_attrtype (l : loc) : M heap T :=
  fun h => match h !! l with
           | Some (OAttributeType t) => (Ret t, h)
           | _ => (Raise AttributeError, h)
           end.

Definition store (l : loc) (o : obj) : M heap unit :=
  fun h => (Ret tt, <[l := o]> h).

(** Field assignments [self.f = v]. *)
Definition set_private (self : loc) (v : P) : M heap unit :=
  a ← get_attribute self;
  store self (OAttribute {| private := v; source_list := source_list a;
                            note_list := note_list a; type := type a;
                            value := value a |}).

Definition set_source_list (self : loc) (v : S) : M heap unit :=
  a ← get_attribute self;
  store self (OAttribute {| private := private a; source_list := v;
                            note_list := note_list a; type := type a;
                            value := value a |}).

Definition set_note_list (self : loc) (v : N) : M heap unit :=
  a ← get_attribute self;
  store self (OAttribute {| private := private a;
                            source_list := source_list a;
                            note_list := v; type := type a;
                            value := value a |}).

(** [Attribute(source)]: the new object's identity is fresh; the three base
    constructors run on the source's slices; with a source, [type] and
    [value] are assigned from it (the [AttributeType] object is shared, not
    copied); without one, a new [AttributeType()] and the empty string. *)
Definition __init__ (source : option loc) : M heap loc :=
  match source with
  | Some s =>
      src ← get_attribute s;
      alloc (OAttribute {| private := base_init (Some (private src));
                           source_list := base_init (Some (source_list src));
                           note_list := base_init (Some (note_list src));
                           type := type src;
                           value := value src |})
  | None =>
      t ← alloc (OAttributeType type_new);
      alloc (OAttribute {| private := base_init None;
                           source_list := base_init None;
                           note_list := base_init None;
                           type := t;
                           value := PyStr "" |})
  end.

(** [serialize]: the tuple of the three base serializations, the type's and
    the value. *)
Definition serialize (self : loc) : M heap pyval :=
  a ← get_attribute self;
  t ← get_attrtype (type a);
  ret (PyTuple [base_serialize (private a);
                base_serialize (source_list a);
                base_serialize (note_list a);
                type_serialize t;
                value a]).

(** [unserialize]: the unpacking assigns [self.value]; then the three base
    routines and the type's run in turn; no exception is handled. *)
Definition unserialize (self : loc) (data : pyval) : M heap loc :=
  '(privacy, sources, notes, the_type, v) ← lift (unpack5 data);
  a ← get_attribute self;
  store self (OAttribute {| private := private a;
                            source_list := source_list a;
                            note_list := note_list a; type := type a;
                            value := v |});;
  a ← get_attribute self;
  p ← lift (base_unserialize (private a) privacy);
  set_private self p;;
  a ← get_attribute self;
  s ← lift (base_unserialize (source_list a) sources);
  set_source_list self s;;
  a ← get_attribute self;
  n ← lift (base_unserialize (note_list a) notes);
  set_note_list self n;;
  a ← get_attribute self;
  t ← get_attrtype (type a);
  t' ← lift (type_unserialize t the_type);
  store (type a) (OAttributeType t');;
  ret self.

Definition set_type (self : loc) (val : pyval) : M heap unit :=
  a ← get_attribute self;
  t ← get_attrtype (type a);
  t' ← lift (type_set t val);
  store (type a) (OAttributeType t').

Definition get_type (self : loc) : M heap loc :=
  a ← get_attribute self;
  ret (type a).

Definition set_value (self : loc) (val : pyval) : M heap unit :=
  a ← get_attribute self;
  store self (OAttribute {| private := private a;
                            source_list := source_list a;
                            note_list := note_list a; type := type a;
                            value := val |}).

Definition get_value (self : loc) : M heap pyval :=
  a ← get_attribute self;
  ret (value a).

(** The record of an object once [self.value = v] is done. *)
Definition with_value (a : attribute) (v : pyval) : attribute :=
  {| private := private a; source_list := source_list a;
     note_list := note_list a; type := type a; value := v |}.

(** [get_text_data_list]: the one textual attribute, the value. *)
Definition get_text_data_list (self : loc) : M heap (list pyval) :=
  a ← get_attribute self;
  ret [value a].

(** [get_text_data_child_list] and [get_handle_referents] both hand back
    [self.source_list]. *)
Definition get_text_data_child_list (self : loc) : M heap S :=
  a ← get_attribute self;
  ret (source_list a).

Definition get_handle_referents (self : loc) : M heap S :=
  a ← get_attribute self;
  ret (source_list a).

(** The field-wise view of an [Attribute] object in a store: its three base
    slices, the state of the [AttributeType] object it refers to, and its
    value. *)
Definition fields (h : heap) (l : loc) : option (P * S * N * T * pyval) :=
  match h !! l with
  | Some (OAttribute a) =>
      match h !! type a with
      | Some (OAttributeType t) =>
          Some (private a, source_list a, note_list a, t, value a)
      | _ => None
      end
  | _ => None
  end.

(** An input is malformed for a receiver when the unpacking into five
    fails or one of the four nested routines rejects its element. *)
Definition malformed (a : attribute) (t : T) (data : pyval) : Prop :=
  match unpack5 data with
  | Raise _ => True
  | Ret (privacy, sources, notes, the_type, _) =>
      raises (base_unserialize (private a) privacy) \/
      raises (base_unserialize (source_list a) sources) \/
      raises (base_unserialize (note_list a) notes) \/
      raises (type_unserialize t the_type)
  end.

End WithComponents.

Arguments attribute : clear implicits.
Arguments obj : clear implicits.

End Attribute.

(** ** Concrete base components

    The modules [privacybase], [srcbase], [notebase] and [attrtype] are
    imported by [attribute.py]; the instances below give the four
    components a concrete form. *)

Module Components.

(** Decoding a sequence of references. *)
Fixpoint handles_of (items : list pyval) : outcome (list string) :=
  match items with
  | [] => Ret []
  | PyStr s :: rest =>
      match handles_of rest with
      | Ret l => Ret (s :: l)
      | Raise e => Raise e
      end
  | _ :: _ => Raise TypeError
  end.

Definition unserialize_handles (data : pyval) : outcome (list string) :=
  match data with
  | PyList items | PyTuple items => handles_of items
  | _ => Raise TypeError
  end.

(** Modelled from the spec: [PrivacyBase], whose module is imported and
    absent; privacy is a boolean-like flag, copied by the constructor and
    serialized as itself. *)
#[export] Instance PrivacyBase : Attribute.BaseComponent bool := {|
  Attribute.base_init source := default false source;
  Attribute.base_serialize b := PyBool b;
  Attribute.base_unserialize _ data :=
    match data with PyBool b => Ret b | _ => Raise TypeError end
|}.

(** Modelled from the spec: [SourceBase], whose module is imported and
    absent; the source list is an ordered sequence of citation references
    (identifiers), empty by default. *)
#[export] Instance SourceBase : Attribute.BaseComponent (list string) := {|
  Attribute.base_init source := default [] source;
  Attribute.base_serialize l := PyList (PyStr <$> l);
  Attribute.base_unserialize _ data := unserialize_handles data
|}.

(** Modelled from the spec: [NoteBase], whose module is imported and absent;
    the note list is an ordered sequence of note references (identifiers),
    empty by default.  It has the same form as the source list; the
    instance is used by giving it explicitly. *)
Definition NoteBase : Attribute.BaseComponent (list string) := {|
  Attribute.base_init source := default [] source;
  Attribute.base_serialize l := PyList (PyStr <$> l);
  Attribute.base_unserialize _ data := unserialize_handles data
|}.

(** Modelled from the spec: [AttributeType], whose module is imported and
    absent; a classified key: a code of the controlled vocabulary and a
    free text for custom values, empty on construction. *)
Record attrtype : Type := { val : Z; custom : string }.

Definition attrtype_of (data : pyval) : outcome attrtype :=
  match data with
  | PyTuple [PyInt v; PyStr s] | PyList [PyInt v; PyStr s] =>
      Ret {| val := v; custom := s |}
  | PyTuple [_; _] | PyList [_; _] => Raise TypeError
  | PyTuple _ | PyList _ => Raise (ValueError "unpack")
  | _ => Raise TypeError
  end.

#[export] Instance AttributeType : Attribute.GrampsType attrtype := {|
  Attribute.type_new := {| val := 0; custom := "" |};
  Attribute.type_serialize t := PyTuple [PyInt (val t); PyStr (custom t)];
  Attribute.type_unserialize _ data := attrtype_of data;
  Attribute.type_set t v :=
    match v with
    | PyInt n => Ret {| val := n; custom := "" |}
    | PyStr s => Ret {| val := 0; custom := s |}
    | _ => attrtype_of v
    end
|}.

End Components.

(** ** Python list operations used by the display tab *)

(** [l.count(x)]. *)
Fixpoint py_count (x : string) (l : list string) : nat :=
  match l with
  | [] => 0
  | y :: l' => if decide (y = x) then Datatypes.S (py_count x l') else py_count x l'
  end.

(** [l.remove(x)]: the first occurrence goes; [None] stands for the
    [ValueError] raised when there is none. *)
Fixpoint py_remove (x : string) (l : list string) : option (list string) :=
  match l with
  | [] => None
  | y :: l' => if decide (y = x) then Some l' else (y ::.) <$> py_remove x l'
  end.

(** A value together with the equation that names it, to keep the equation
    when a loop branches on the value. *)
Definition inspect {A : Type} (x : A) : {y : A | x = y} := exist _ x eq_refl.

(** ** CitationEmbedList *)

Module CitationEmbedList.

Definition handle := string.

(** What a selector or a database lookup hands back: [None], a [Source], a
    [Citation] (each with its handle, absent on a new object), or any other
    value, of which only the truth value matters.  Tuples are left out:
    selectors and lookups hand back records or [None], and the [%] of the
    debug line in [share_button_clicked] would take a tuple apart. *)
Inductive gobject : Type :=
| ObjNone
| ObjSource (h : option handle)
| ObjCitation (h : option handle)
| ObjOther (truth : bool).

(** [isinstance(objct, Source)], [isinstance(objct, Citation)]. *)
Definition is_source (o : gobject) : bool :=
  match o with ObjSource _ => true | _ => false end.
Definition is_citation (o : gobject) : bool :=
  match o with ObjCitation _ => true | _ => false end.

(** [if objct:] -- instances of the library classes are true. *)
Definition truthy (o : gobject) : bool :=
  match o with
  | ObjNone => false
  | ObjSource _ | ObjCitation _ => true
  | ObjOther b => b
  end.

(** [if handle:] -- [None] and the empty string are false. *)
Definition truthy_handle (h : option handle) : bool :=
  match h with
  | None => false
  | Some s => bool_decide (s <> "")
  end.

(** The arguments of one [EditCitation(...)] call. *)
Record editor_request : Type := {
  ed_citation : gobject;
  ed_source : option gobject;
  ed_callback : bool;            (* [self.object_added] passed or not *)
  ed_callertitle : option string
}.

(** Calls into the toolkit, in the order they were made. *)
Inductive event : Type :=
| EvEditCitation (req : editor_request)
| EvWarningDialog (title text : string)
| EvRegisterHandles (hs : list handle)
| EvRebuild
| EvIdleAddScroll (row : Z).

(** The tab's own state. *)
Record tab : Type := {
  data : list handle;
  callertitle : option string;
  changed : bool;
  action : option string;
  log : list event
}.

Definition emit (e : event) : M tab unit :=
  fun t => (Ret tt, {| data := data t; callertitle := callertitle t;
                       changed := changed t; action := action t;
                       log := log t ++ [e] |}).

Definition set_data (d : list handle) : M tab unit :=
  fun t => (Ret tt, {| data := d; callertitle := callertitle t;
                       changed := changed t; action := action t;
                       log := log t |}).

Definition set_changed (b : bool) : M tab unit :=
  fun t => (Ret tt, {| data := data t; callertitle := callertitle t;
                       changed := b; action := action t;
                       log := log t |}).

Definition set_action (a : string) : M tab unit :=
  fun t => (Ret tt, {| data := data t; callertitle := callertitle t;
                       changed := changed t; action := Some a;
                       log := log t |}).

Definition get {A} (f : tab -> A) : M tab A := fun t => (Ret (f t), t).

(** The collaborators the tab calls: the selector, the database, the
    editor constructor, the selection of the list, the translation. *)
Record environment : Type := {
  sel_run : gobject;
  get_selected : option handle;
  get_citation_from_handle : handle -> outcome gobject;
  get_source_from_handle : handle -> outcome gobject;
  prepare_clone : gobject -> outcome (gobject * gobject);
  EditCitation : editor_request -> outcome unit;
  gettext : string -> string
}.

Definition newline : string := String (Ascii.ascii_of_nat 10) "".

Definition selection_error : exn :=
  ValueError "selection must be either source or citation".

Section WithEnvironment.

Variable env : environment.

(** One [EditCitation(...)] call: the window opens or the constructor
    raises. *)
Definition open_editor (req : editor_request) : M tab unit :=
  lift (EditCitation env req);;
  emit (EvEditCitation req).

Definition rebuild : M tab unit := emit EvRebuild.

Definition get_data : M tab (list handle) := get data.

Definition __blocked_text : string :=
  gettext env
    ("This citation cannot be created at this time. "
     +:+ "Either the associated Source object is already being "
     +:+ "edited, or another citation associated with the same "
     +:+ "source is being edited." +:+ newline +:+ newline
     +:+ "To edit this "
     +:+ "citation, you need to close the object.").

Definition WarningDialog (title text : string) : M tab unit :=
  emit (EvWarningDialog title text).

Definition cannot_share : M tab unit :=
  WarningDialog (gettext env "Cannot share this reference") __blocked_text.

Definition add_button_clicked : M tab unit :=
  try_except_WindowActiveError
    (ct ← get callertitle;
     open_editor {| ed_citation := ObjCitation None;
                    ed_source := Some (ObjSource None);
                    ed_callback := true;
                    ed_callertitle := ct |})
    (ret tt).

Definition object_added (value : handle) : M tab unit :=
  d ← get_data;
  set_data (d ++ [value]);;
  emit (EvRegisterHandles [value]);;
  set_changed true;;
  rebuild;;
  d' ← get_data;
  emit (EvIdleAddScroll (Z.of_nat (length d') - 1)).

(** [sel.run()] gives the chosen object; the [LOG.debug] line has no effect
    on the tab. *)
Definition share_button_clicked : M tab unit :=
  let objct := sel_run env in
  if truthy objct then
    if is_source objct then
      try_except_WindowActiveError
        (ct ← get callertitle;
         open_editor {| ed_citation := ObjCitation None;
                        ed_source := Some objct;
                        ed_callback := true;
                        ed_callertitle := ct |})
        cannot_share
    else if is_citation objct then
      try_except_WindowActiveError
        (ct ← get callertitle;
         open_editor {| ed_citation := objct;
                        ed_source := None;
                        ed_callback := true;
                        ed_callertitle := ct |})
        cannot_share
    else raise selection_error
  else ret tt.

Definition edit_button_clicked : M tab unit :=
  match get_selected env with
  | Some h =>
      if truthy_handle (Some h) then
        citation ← lift (get_citation_from_handle env h);
        try_except_WindowActiveError
          (ct ← get callertitle;
           open_editor {| ed_citation := citation;
                          ed_source := None;
                          ed_callback := false;
                          ed_callertitle := ct |})
          (ret tt)
      else ret tt
  | None => ret tt
  end.

(** The copy of the selected citation, its new identifier and the lookup
    of its source are calls into the library and the database
    ([prepare_clone]); they run inside the [try], before the editor. *)
Definition clone_button_clicked : M tab unit :=
  match get_selected env with
  | Some h =>
      if truthy_handle (Some h) then
        source_citation ← lift (get_citation_from_handle env h);
        try_except_WindowActiveError
          ('(citation, source) ← lift (prepare_clone env source_citation);
           set_action "Citation-Clone";;
           ct ← get callertitle;
           open_editor {| ed_citation := citation;
                          ed_source := Some source;
                          ed_callback := true;
                          ed_callertitle := ct |})
          (ret tt)
      else ret tt
  | None => ret tt
  end.

(** [while self.data.count(handle) > 0: self.data.remove(handle);
    rebuild = True], with the local [rebuild] passed along. *)
Equations? remove_occurrences (h : handle) (rebuild : bool) (t : tab)
  : outcome bool * tab by wf (py_count h (data t)) lt :=
  remove_occurrences h rebuild t with decide (0 < py_count h (data t)) := {
    | right _ := (Ret rebuild, t);
    | left _ with inspect (py_remove h (data t)) := {
        | exist _ (Some d) E :=
            remove_occurrences h true
              {| data := d; callertitle := callertitle t;
                 changed := changed t; action := action t; log := log t |};
        | exist _ None _ :=
            (Raise (ValueError "list.remove(x): x not in list"), t) } }.
Proof.
  clear - E. cbn [data]. revert d E.
  induction (data t) as [|y l IH]; intros d E; cbn in *; [done|].
  case_decide.
  - injection E as <-. lia.
  - destruct (py_remove h l) as [l'|] eqn:R; [|done].
    injection E as <-. cbn. rewrite decide_False by done.
    by apply IH.
Qed.

(** [for handle in del_citation_handle_list: ...]. *)
Fixpoint for_each_deleted (dels : list handle) (rebuild : bool)
  : M tab bool :=
  match dels with
  | [] => ret rebuild
  | h :: rest =>
      r ← remove_occurrences h rebuild;
      for_each_deleted rest r
  end.

Definition citation_delete (del_citation_handle_list : list handle)
  : M tab unit :=
  r ← for_each_deleted del_citation_handle_list false;
  if (r : bool) then rebuild else ret tt.

Definition _handle_drag (h : option handle) : M tab unit :=
  match h with
  | Some hd =>
      if truthy_handle (Some hd) then
        objct ← lift (get_citation_from_handle env hd);
        if is_citation objct then
          try_except_WindowActiveError
            (ct ← get callertitle;
             open_editor {| ed_citation := objct;
                            ed_source := None;
                            ed_callback := true;
                            ed_callertitle := ct |})
            cannot_share
        else raise selection_error
      else ret tt
  | None => ret tt
  end.

Definition handle_extra_type (h : option handle) : M tab unit :=
  match h with
  | Some hd =>
      if truthy_handle (Some hd) then
        objct ← lift (get_source_from_handle env hd);
        if is_source objct then
          try_except_WindowActiveError
            (ct ← get callertitle;
             open_editor {| ed_citation := ObjCitation None;
                            ed_source := Some objct;
                            ed_callback := true;
                            ed_callertitle := ct |})
            cannot_share
        else raise selection_error
      else ret tt
  | None => ret tt
  end.

(** The tab once the "cannot share" warning was shown: one more entry in
    the log, everything else as before. *)
Definition warned (t : tab) : tab :=
  {| data := data t; callertitle := callertitle t; changed := changed t;
     action := action t;
     log := log t ++ [EvWarningDialog
                        (gettext env "Cannot share this reference")
                        __blocked_text] |}.

End WithEnvironment.

(** The [EditCitation(...)] calls of the flows, by their arguments.
    [request_new]: a new [Citation()] on a given source, with the
    [object_added] callback (add, share of a source, drop of a source).
    [request_existing]: a given citation, no source argument, with the
    callback (share and drop of a citation).  [request_edit]: the selected
    citation, no source argument, no callback.  [request_clone]: the copy
    and its source, with the callback. *)
Definition request_new (source : gobject) (ct : option string)
  : editor_request :=
  {| ed_citation := ObjCitation None; ed_source := Some source;
     ed_callback := true; ed_callertitle := ct |}.

Definition request_existing (citation : gobject) (ct : option string)
  : editor_request :=
  {| ed_citation := citation; ed_source := None;
     ed_callback := true; ed_callertitle := ct |}.

Definition request_edit (citation : gobject) (ct : option string)
  : editor_request :=
  {| ed_citation := citation; ed_source := None;
     ed_callback := false; ed_callertitle := ct |}.

Definition request_clone (citation source : gobject) (ct : option string)
  : editor_request :=
  {| ed_citation := citation; ed_source := Some source;
     ed_callback := true; ed_callertitle := ct |}.

End CitationEmbedList.

(** ** CitationEmbedList: selection, merge and update *)

Module CitationEmbedListView.
Import CitationEmbedList.

(** The tab together with what its selection and buttons hold: the handles
    picked by [_selection_changed], the [dirty_selection] flag, the
    sensitivity of the edit, clone, delete and merge buttons, and the
    [MergeCitation] dialogs opened so far. *)
Record view : Type := {
  tab_of : tab;
  selected_list : list handle;
  dirty_selection : bool;
  edit_btn : bool;
  clone_btn : bool;
  del_btn : bool;
  merge_btn : bool;
  merges : list (handle * handle)
}.

(** A call on the tab's own state, made from the wider state. *)
Definition on_tab {A} (m : M tab A) : M view A :=
  fun v => let '(r, t) := m (tab_of v) in
           (r, {| tab_of := t; selected_list := selected_list v;
                  dirty_selection := dirty_selection v;
                  edit_btn := edit_btn v; clone_btn := clone_btn v;
                  del_btn := del_btn v; merge_btn := merge_btn v;
                  merges := merges v |}).

Definition set_selected_list (l : list handle) : M view unit :=
  fun v => (Ret tt, {| tab_of := tab_of v; selected_list := l;
                       dirty_selection := dirty_selection v;
                       edit_btn := edit_btn v; clone_btn := clone_btn v;
                       del_btn := del_btn v; merge_btn := merge_btn v;
                       merges := merges v |}).

(** [edit_btn], [clone_btn] and [del_btn] get the first flag,
    [merge_btn] the second. *)
Definition set_sensitive (one two : bool) : M view unit :=
  fun v => (Ret tt, {| tab_of := tab_of v; selected_list := selected_list v;
                       dirty_selection := dirty_selection v;
                       edit_btn := one; clone_btn := one; del_btn := one;
                       merge_btn := two; merges := merges v |}).

Definition record_merge (a b : handle) : M view unit :=
  fun v => (Ret tt, {| tab_of := tab_of v; selected_list := selected_list v;
                       dirty_selection := dirty_selection v;
                       edit_btn := edit_btn v; clone_btn := clone_btn v;
                       del_btn := del_btn v; merge_btn := merge_btn v;
                       merges := merges v ++ [(a, b)] |}).

(** [_selection_changed]: [rows] holds, for each selected path, the handle
    read in the model, or [None] when the model has no iterator for the
    path. *)
Definition _selection_changed (rows : list (option handle)) : M view unit :=
  fun v =>
    if dirty_selection v then (Ret tt, v)
    else
      let picked := omap id rows in
      (set_selected_list picked;;
       match picked with
       | [] => mret tt
       | _ :: _ =>
           set_sensitive (bool_decide (length picked = 1%nat))
                         (bool_decide (length picked = 2%nat))
       end) v.

Section WithEnvironment.

Variable env : environment.

(** The merge dialog constructor. *)
Variable MergeCitation : handle -> handle -> outcome unit.

(** [merge_button_clicked]: nothing unless two handles are selected; a
    warning when they are equal; otherwise the tab is marked changed, the
    action is noted and the merge dialog is opened, outside any [try]. *)
Definition merge_button_clicked : M view unit :=
  fun v =>
    match selected_list v with
    | [a; b] =>
        if decide (a = b) then
          on_tab (WarningDialog
                    (gettext env "Cannot merge this references")
                    (gettext env
                       "This is one event, but with different roles.")) v
        else
          (on_tab (set_changed true);;
           on_tab (set_action "Citation-Merge");;
           lift (MergeCitation a b);;
           record_merge a b) v
    | _ => (Ret tt, v)
    end.

End WithEnvironment.

(** [citation_update]: one rebuild at the first updated handle that the
    tab holds, and the loop is left. *)
Fixpoint citation_update (upd_citation_handle_list : list handle)
  : M tab unit :=
  match upd_citation_handle_list with
  | [] => ret tt
  | h :: rest =>
      d ← get data;
      if decide (h ∈ d) then rebuild else citation_update rest
  end.

End CitationEmbedListView.

(** ** Utilities of [utils.py] *)

Module Utils.

(** [sep.join(items)]. *)
Fixpoint join (sep : string) (items : list string) : string :=
  match items with
  | [] => ""
  | [x] => x
  | x :: rest => x +:+ sep +:+ join sep rest
  end.

(** *** Detail flags and detail text *)

Section Details.

(** What the two functions read of a record: its note, its source
    references and its privacy flag (an integer; [True] is [1]). *)
Context {R : Type}.

Record detailed : Type := {
  getNote : string;
  getSourceRefList : list R;
  getPrivacy : Z
}.

(** The translation [_] and the setting [Config.show_detail]. *)
Variable gettext : string -> string.
Variable show_detail : bool.

Definition get_detail_flags (obj : detailed) : string :=
  let detail := "" in
  if show_detail then
    let detail := if decide (getNote obj <> "") then "N" else detail in
    let detail :=
      if decide (0 < length (getSourceRefList obj))%nat
      then detail +:+ "S" else detail in
    let detail :=
      if decide (getPrivacy obj <> 0%Z) then detail +:+ "P" else detail in
    detail
  else detail.

Definition get_detail_text (obj : detailed) : string :=
  let details := if decide (getNote obj <> "") then gettext "Note" else "" in
  let details :=
    if decide (0 < length (getSourceRefList obj))%nat then
      if decide (details = "") then gettext "Source"
      else details +:+ ", " +:+ gettext "Source"
    else details in
  let details :=
    if decide (getPrivacy obj = 1%Z) then
      if decide (details = "") then gettext "Private"
      else details +:+ ", " +:+ gettext "Private"
    else details in
  details.

(** The record with another privacy flag. *)
Definition with_privacy (p : Z) (obj : detailed) : detailed :=
  {| getNote := getNote obj; getSourceRefList := getSourceRefList obj;
     getPrivacy := p |}.

(** The labels of the details a record has, in the order of the text. *)
Definition detail_labels (obj : detailed) : list string :=
  (if decide (getNote obj <> "") then [gettext "Note"] else []) ++
  (if decide (0 < length (getSourceRefList obj))%nat
   then [gettext "Source"] else []) ++
  (if decide (getPrivacy obj = 1%Z) then [gettext "Private"] else []).

End Details.

Arguments detailed : clear implicits.

(** *** Deleting the selected row *)

(** [del l[i]]: a negative index counts from the end; outside the list an
    [IndexError] is raised. *)
Definition py_del_item {A} (i : Z) (l : list A) : outcome (list A) :=
  let n := Z.of_nat (length l) in
  let j := if decide (i < 0)%Z then (i + n)%Z else i in
  if decide (0 <= j < n)%Z then Ret (delete (Z.to_nat j) l)
  else Raise (OtherError "IndexError").

(** [delete_selected(obj, list)]: [selection] is [obj.selection]; the
    list is the state. *)
Definition delete_selected {A} (selection : list Z) : M (list A) Z :=
  match selection with
  | [] => ret 0%Z
  | i :: _ =>
      fun l => match py_del_item i l with
               | Ret l' => (Ret 1%Z, l')
               | Raise e => (Raise e, l)
               end
  end.

(** *** Splitting into words *)

(** [string.whitespace]: space, tab, line feed, carriage return, vertical
    tab and form feed. *)
Definition whitespace (c : Ascii.ascii) : bool :=
  let n := Ascii.nat_of_ascii c in
  bool_decide (n = 32 \/ n = 9 \/ n = 10 \/ n = 13 \/ n = 11 \/ n = 12)%nat.

(** [string.split(s)] without a separator: the words between runs of
    whitespace; [cur] is the word being read, if any. *)
Fixpoint words (cur : option string) (s : string) : list string :=
  match s with
  | EmptyString => match cur with Some w => [w] | None => [] end
  | String c s' =>
      if whitespace c
      then match cur with
           | Some w => w :: words None s'
           | None => words None s'
           end
      else words (Some (default "" cur +:+ String c "")) s'
  end.

Definition py_split (s : string) : list string := words None s.

(** *** MIME lookups *)

Section Mime.

(** [gnome.mime.get_keys], [gnome.mime.get_value], [string.split],
    [os.path.isfile] and the result of
    [gnome.util.pixmap_file("nautilus")]. *)
Variable get_keys : string -> list string.
Variable get_value : string -> string -> string.
Variable split : string -> list string.
Variable isfile : string -> bool.
Variable pixmap_nautilus : string.

Record photo : Type := { getMimeType : string; getPath : string }.

(** A command variable of [view_photo]: still the empty string, or the
    words of a command line. *)
Inductive command : Type :=
| NoCommand
| Command (words : list string).

(** [c == ""]: a list of words, even an empty one, is not the empty
    string. *)
Definition is_empty_string (c : command) : bool :=
  match c with NoCommand => true | Command _ => false end.

(** [for val in c]: the empty string yields nothing. *)
Definition words_of (c : command) : list string :=
  match c with NoCommand => [] | Command ws => ws end.

(** One turn of the loop over the keys: three independent tests. *)
Definition pick_command (ty : string) (st : command * command * command)
    (key : string) : command * command * command :=
  let '(prog, open, edit) := st in
  let prog := if decide (key = "view")
              then Command (split (get_value ty key)) else prog in
  let open := if decide (key = "open")
              then Command (split (get_value ty key)) else open in
  let edit := if decide (key = "edit")
              then Command (split (get_value ty key)) else edit in
  (prog, open, edit).

(** What [view_photo] ends with: the warning dialog, or a forked child
    that is to run [os.execvp(args[0], args)]. *)
Inductive viewing : Type :=
| CannotView (message : string)
| Forked (args : list string).

Definition view_photo (ph : photo) : viewing :=
  let ty := getMimeType ph in
  let '(prog, open, edit) :=
    fold_left (pick_command ty) (get_keys ty)
              (NoCommand, NoCommand, NoCommand) in
  if is_empty_string prog && is_empty_string open && is_empty_string edit
  then CannotView ("Sorry, I cannot find a viewer for " +:+ ty +:+ " type")
  else
    let prog := if is_empty_string prog && is_empty_string open
                then edit else open in
    Forked ((fun val => if decide (val = "%f") then getPath ph else val)
              <$> words_of prog).

(** The child's [os.execvp(args[0], args)]: the program and its argument
    vector, or the [IndexError] of [args[0]] on an empty list. *)
Definition execvp_call (args : list string) : outcome (string * list string) :=
  match args with
  | [] => Raise (OtherError "IndexError")
  | a :: _ => Ret (a, args)
  end.

(** One turn of the loop of [find_icon]: [if ... elif ...]. *)
Definition pick_icon (mtype : string)
    (st : option string * option string) (k : string)
  : option string * option string :=
  let '(icon, nicon) := st in
  if decide (k = "icon-filename") then (Some (get_value mtype k), nicon)
  else if decide (k = "icon_filename") then (icon, Some (get_value mtype k))
  else (icon, nicon).

(** [if x:] on a variable that is [None] or a string. *)
Definition truthy_string (x : option string) : bool :=
  match x with
  | None => false
  | Some s => bool_decide (s <> "")
  end.

Definition find_icon (mtype : string) : string :=
  let '(icon, nicon) :=
    fold_left (pick_icon mtype) (get_keys mtype) (None, None) in
  let fallback := if truthy_string icon then default "" icon else "" in
  if truthy_string nicon then
    let p := pixmap_nautilus +:+ "/" +:+ default "" nicon in
    if isfile p then p
    else
      let p := p +:+ ".png" in
      if isfile p then p else fallback
  else fallback.

End Mime.

(** *** Text completion in a combo box *)

(** [string.rstrip(s)]. *)
Fixpoint rstrip (s : string) : string :=
  match s with
  | EmptyString => ""
  | String c s' =>
      let r := rstrip s' in
      if decide (r = "") then (if whitespace c then "" else String c "")
      else String c r
  end.

(** [string.rfind(s, c)] for a one-character [c]: the highest index, or
    [-1]. *)
Fixpoint py_rfind_char (c : Ascii.ascii) (s : string) : Z :=
  match s with
  | EmptyString => (-1)%Z
  | String x s' =>
      let i := py_rfind_char c s' in
      if decide (0 <= i)%Z then (i + 1)%Z
      else if decide (x = c) then 0%Z else (-1)%Z
  end.

(** [string.find(s, sub)]: the lowest index, or [-1]. *)
Definition py_find (s sub : string) : Z :=
  match String.index 0 sub s with
  | Some n => Z.of_nat n
  | None => (-1)%Z
  end.

(** The label without its trailing bracketed identifier: cut at the last
    bracket when that is not the first character, then stripped on the
    right. *)
Definition strip_id (label_text : string) : string :=
  let index := py_rfind_char (Ascii.ascii_of_nat 91) label_text in
  if decide (0 < index)%Z
  then rstrip (String.substring 0 (Z.to_nat index) label_text)
  else label_text.

Section Completion.

(** [string.lower]. *)
Variable lower : string -> string.

(** The walk over the labels of the list items: [None] when the callback
    returns without touching the entry, the text to set otherwise. *)
Fixpoint completion (typed_lc : string) (labels : list string)
  : option string :=
  match labels with
  | [] => None
  | label_text :: rest =>
      if decide (label_text = "") then completion typed_lc rest
      else
        let label_text := strip_id label_text in
        let label_text_lc := lower label_text in
        if decide (typed_lc = label_text_lc) then None
        else if decide (py_find label_text_lc typed_lc = 0)%Z
             then Some label_text
             else completion typed_lc rest
  end.

(** The combo box: the timer kept as data (0 for none), the entry's text,
    cursor and selected region, the labels of the list items, and the
    timers removed so far. *)
Record combo : Type := {
  timer : Z;
  entry_text : string;
  position : nat;
  region : option (nat * Z);
  labels : list string;
  removed_timers : list Z
}.

Definition combo_timer_callback (c : combo) : combo :=
  let removed := if decide (timer c <> 0%Z)
                 then removed_timers c ++ [timer c]
                 else removed_timers c in
  let typed := entry_text c in
  let untouched :=
    {| timer := timer c; entry_text := entry_text c;
       position := position c; region := region c; labels := labels c;
       removed_timers := removed |} in
  if decide (typed = "") then untouched
  else
    match completion (lower typed) (labels c) with
    | None => untouched
    | Some label_text =>
        {| timer := timer c; entry_text := label_text;
           position := String.length typed;
           region := Some (String.length typed, (-1)%Z);
           labels := labels c; removed_timers := removed |}
    end.

End Completion.

End Utils.

(** ** Sample stores, tabs and collaborators *)

Module Samples.
Import Attribute Components CitationEmbedList.

(** An attribute at [2] (its type at [1]) and a default one at [4] (its
    type at [3]). *)
Definition type0 : attrtype := {| val := 3; custom := "" |}.

Definition attr0 : attribute bool (list string) (list string) :=
  {| private := true; source_list := ["C0001"];
     note_list := ["N0001"; "N0002"]; type := 1%positive;
     value := PyStr "blue" |}.

Definition store0 : gmap loc (obj bool (list string) (list string) attrtype) :=
  <[4%positive := OAttribute {| private := false; source_list := [];
                                note_list := []; type := 3%positive;
                                value := PyStr "" |}]>
  (<[3%positive := OAttributeType {| val := 0; custom := "" |}]>
  (<[2%positive := OAttribute attr0]>
  (<[1%positive := OAttributeType type0]> ∅))).

Definition tab0 : tab :=
  {| data := ["c1"; "c2"; "c1"]; callertitle := Some "Person";
     changed := false; action := None; log := [] |}.

Definition db_citation (h : handle) : outcome gobject :=
  Ret (ObjCitation (Some h)).
Definition db_source (h : handle) : outcome gobject :=
  Ret (ObjSource (Some h)).

(** The user closes the selector without choosing anything. *)
Definition env_cancel : environment :=
  {| sel_run := ObjNone; get_selected := None;
     get_citation_from_handle := db_citation;
     get_source_from_handle := db_source;
     prepare_clone c := Ret (c, ObjSource None);
     EditCitation _ := Ret tt;
     gettext msg := msg |}.

(** A source is chosen, a citation is selected, and every editor window
    asked for is already open. *)
Definition env_busy : environment :=
  {| sel_run := ObjSource (Some "s1"); get_selected := Some "c1";
     get_citation_from_handle := db_citation;
     get_source_from_handle := db_source;
     prepare_clone c := Ret (c, ObjSource (Some "s1"));
     EditCitation _ := Raise WindowActiveError;
     gettext msg := msg |}.

(** The selector hands back something that is neither a source nor a
    citation; the database has lost the records asked for. *)
Definition env_stray : environment :=
  {| sel_run := ObjOther true; get_selected := Some "c1";
     get_citation_from_handle _ := Ret ObjNone;
     get_source_from_handle _ := Ret ObjNone;
     prepare_clone c := Ret (c, ObjSource None);
     EditCitation _ := Ret tt;
     gettext msg := msg |}.

(** Only the source [s1] and the citation [c1] are open in an editor:
    a request that names one of them is refused, every other request opens
    its window. *)
Definition names_open_record (req : editor_request) : bool :=
  match ed_citation req, ed_source req with
  | ObjCitation (Some h), _ => bool_decide (h = "c1")
  | _, Some (ObjSource (Some h)) => bool_decide (h = "s1")
  | _, _ => false
  end.

Definition env_one : environment :=
  {| sel_run := ObjSource (Some "s1"); get_selected := Some "c1";
     get_citation_from_handle := db_citation;
     get_source_from_handle := db_source;
     prepare_clone c := Ret (c, ObjSource (Some "s1"));
     EditCitation req :=
       if names_open_record req then Raise WindowActiveError else Ret tt;
     gettext msg := msg |}.

End Samples.

(** ** More samples *)

Module MoreSamples.
Import Attribute Components CitationEmbedList CitationEmbedListView Utils
  Samples.

(** The editor constructor fails for a reason of its own. *)
Definition env_broken : environment :=
  {| sel_run := ObjSource (Some "s1"); get_selected := Some "c1";
     get_citation_from_handle := db_citation;
     get_source_from_handle := db_source;
     prepare_clone c := Ret (c, ObjSource (Some "s1"));
     EditCitation _ := Raise (OtherError "RuntimeError");
     gettext msg := msg |}.

(** The constructor fails, for a reason of its own, on the requests that
    name the source [s1] or the citation [c1] only. *)
Definition env_fussy : environment :=
  {| sel_run := ObjSource (Some "s1"); get_selected := Some "c1";
     get_citation_from_handle := db_citation;
     get_source_from_handle := db_source;
     prepare_clone c := Ret (c, ObjSource (Some "s1"));
     EditCitation req :=
       if names_open_record req then Raise (OtherError "RuntimeError")
       else Ret tt;
     gettext msg := msg |}.

Definition view0 : view :=
  {| tab_of := tab0; selected_list := []; dirty_selection := false;
     edit_btn := false; clone_btn := false; del_btn := false;
     merge_btn := true; merges := [] |}.

Definition merge_opens (a b : handle) : outcome unit := Ret tt.
Definition merge_busy (a b : handle) : outcome unit :=
  Raise WindowActiveError.

(** A record with a note, one source and the privacy flag set. *)
Definition noted : detailed string :=
  {| getNote := "seen in the register"; getSourceRefList := ["S0001"];
     getPrivacy := 1 |}.

(** A record whose privacy flag is neither 0 nor 1. *)
Definition oddly_private : detailed string :=
  {| getNote := ""; getSourceRefList := []; getPrivacy := 2 |}.

(** A MIME database: JPEG images can be viewed and edited, PNG images
    opened, text has no program. *)
Definition mime_keys (ty : string) : list string :=
  if decide (ty = "image/jpeg") then ["view"; "edit"; "icon-filename"]
  else if decide (ty = "image/png")
       then ["open"; "description"; "icon_filename"]
  else [].

Definition mime_value (ty key : string) : string :=
  if decide (key = "view") then "eog %f"
  else if decide (key = "edit") then "gimp   --new %f"
  else if decide (key = "open") then "display %f"
  else if decide (key = "icon-filename") then "/icons/jpeg.png"
  else if decide (key = "icon_filename") then "png"
  else "PNG image".

Definition on_disk (path : string) : bool :=
  bool_decide (path = "/pixmaps/nautilus/png.png").

Definition jpeg : photo :=
  {| getMimeType := "image/jpeg"; getPath := "/home/me/a.jpg" |}.
Definition png : photo :=
  {| getMimeType := "image/png"; getPath := "/home/me/b.png" |}.

(** Lower case for the letters A to Z. *)
Definition lower_char (c : Ascii.ascii) : Ascii.ascii :=
  let n := Ascii.nat_of_ascii c in
  if decide (65 <= n <= 90)%nat then Ascii.ascii_of_nat (n + 32) else c.

Fixpoint lower_ascii (s : string) : string :=
  match s with
  | EmptyString => ""
  | String c s' => String (lower_char c) (lower_ascii s')
  end.

Definition places : combo :=
  {| timer := 7; entry_text := "par"; position := 3; region := None;
     labels := [""; "Oslo [P0003]"; "Paris  [P0001]"; "Parma [P0002]"];
     removed_timers := [] |}.

(** The type set to the code 7. *)
Definition type7 : attrtype := {| val := 7; custom := "" |}.

(** A database that differs from the sample in the [view] command only. *)
Definition mime_value_xv (ty key : string) : string :=
  if decide (key = "view") then "xv %f" else mime_value ty key.

End MoreSamples.

(** * Properties *)

(** ** Running calls *)

Lemma bind_run {St A B} (m : M St A) (k : A -> M St B) (s s' : St) (a : A) :
  m s = (Ret a, s') -> (m ≫= k) s = k a s'.
Proof. intros E. unfold mbind, M_bind, bind. by rewrite E. Qed.

Lemma bind_raise {St A B} (m : M St A) (k : A -> M St B) (s s' : St)
    (e : exn) :
  m s = (Raise e, s') -> (m ≫= k) s = (Raise e, s').
Proof. intros E. unfold mbind, M_bind, bind. by rewrite E. Qed.

Lemma unpack5_tuple_arity (items : list pyval) :
  length items <> 5%nat -> raises (unpack5 (PyTuple items)).
Proof.
  intros L. unfold unpack5. cbn [py_iter].
  destruct items as [|a [|b [|c [|d [|e [|f rest]]]]]]; cbn in *;
    try done; by case_decide.
Qed.

(** ** Attribute *)

Module AttributeSpec.
Import Attribute.

Section WithComponents.

Context {P S N T : Type}.
Context {PrivacyBase : BaseComponent P}.
Context {SourceBase : BaseComponent S}.
Context {NoteBase : BaseComponent N}.
Context {AttributeType : GrampsType T}.

Abbreviation attribute := (attribute P S N).
Abbreviation heap := (gmap loc (obj P S N T)).

Implicit Types (h : heap) (a : attribute) (t : T).

Lemma get_attribute_at h (l : loc) a :
  h !! l = Some (OAttribute a) -> get_attribute l h = (Ret a, h).
Proof. intros E. unfold get_attribute. by rewrite E. Qed.

Lemma get_attrtype_at h (l : loc) t :
  h !! l = Some (OAttributeType t) -> get_attrtype l h = (Ret t, h).
Proof. intros E. unfold get_attrtype. by rewrite E. Qed.

Lemma type_is_not_self h (self : loc) a t :
  h !! self = Some (OAttribute a) ->
  h !! type a = Some (OAttributeType t) ->
  self <> type a.
Proof. intros Ha Ht E. rewrite <- E in Ht. congruence. Qed.

Lemma fields_inv h (l : loc) (f : P * S * N * T * pyval) :
  fields h l = Some f ->
  exists a t,
    h !! l = Some (OAttribute a) /\ h !! type a = Some (OAttributeType t) /\
    f = (private a, source_list a, note_list a, t, value a).
Proof.
  unfold fields. intros E.
  destruct (h !! l) as [[a|]|] eqn:Ha; try done.
  destruct (h !! type a) as [[|t]|] eqn:Ht; try done.
  exists a, t. by injection E as <-.
Qed.

Lemma fields_at h (l : loc) a t :
  h !! l = Some (OAttribute a) ->
  h !! type a = Some (OAttributeType t) ->
  fields h l = Some (private a, source_list a, note_list a, t, value a).
Proof. intros Ha Ht. unfold fields. by rewrite Ha, Ht. Qed.

Lemma serialize_at h (self : loc) a t :
  h !! self = Some (OAttribute a) ->
  h !! type a = Some (OAttributeType t) ->
  serialize self h =
    (Ret (PyTuple [base_serialize (private a);
                   base_serialize (source_list a);
                   base_serialize (note_list a);
                   type_serialize t;
                   value a]), h).
Proof.
  intros Ha Ht. unfold serialize.
  rewrite (bind_run _ _ _ _ _ (get_attribute_at _ _ _ Ha)).
  by rewrite (bind_run _ _ _ _ _ (get_attrtype_at _ _ _ Ht)).
Qed.

Ltac step_lookup :=
  repeat first
    [ rewrite lookup_insert_eq
    | rewrite lookup_insert_ne by congruence ];
  cbn [private source_list note_list type value].

Ltac unfold_calls :=
  unfold unserialize, set_private, set_source_list, set_note_list, set_value,
    get_value;
  unfold mbind, M_bind, bind, lift, store, get_attribute, get_attrtype,
    mret, M_ret, ret.

(** What [unserialize] does on a well-formed receiver once the unpacking
    went through: the four nested routines decide, in their order. *)
Lemma unserialize_unpacked h (self : loc) a t
    (privacy sources notes the_type v : pyval) (data : pyval) :
  h !! self = Some (OAttribute a) ->
  h !! type a = Some (OAttributeType t) ->
  unpack5 data = Ret (privacy, sources, notes, the_type, v) ->
  (unserialize self data h).1 =
    match base_unserialize (private a) privacy,
          base_unserialize (source_list a) sources,
          base_unserialize (note_list a) notes,
          type_unserialize t the_type with
    | Raise e, _, _, _ => Raise e
    | Ret _, Raise e, _, _ => Raise e
    | Ret _, Ret _, Raise e, _ => Raise e
    | Ret _, Ret _, Ret _, Raise e => Raise e
    | Ret _, Ret _, Ret _, Ret _ => Ret self
    end.
Proof.
  intros Ha Ht Eu.
  pose proof (type_is_not_self _ _ _ _ Ha Ht) as Hne.
  unfold_calls. rewrite Eu. cbn. rewrite Ha. step_lookup.
  destruct (base_unserialize (private a) privacy); [|done]. step_lookup.
  destruct (base_unserialize (source_list a) sources); [|done]. step_lookup.
  destruct (base_unserialize (note_list a) notes); [|done]. step_lookup.
  rewrite !lookup_insert_ne by congruence. rewrite Ht.
  by destruct (type_unserialize t the_type).
Qed.

Lemma unserialize_run h (self : loc) a t
    (privacy sources notes the_type v : pyval) (p : P) (s : S) (n : N)
    (t' : T) :
  h !! self = Some (OAttribute a) ->
  h !! type a = Some (OAttributeType t) ->
  base_unserialize (private a) privacy = Ret p ->
  base_unserialize (source_list a) sources = Ret s ->
  base_unserialize (note_list a) notes = Ret n ->
  type_unserialize t the_type = Ret t' ->
  unserialize self (PyTuple [privacy; sources; notes; the_type; v]) h =
    (Ret self,
     <[type a := OAttributeType t']>
       (<[self := OAttribute {| private := p; source_list := s;
                                note_list := n; type := type a;
                                value := v |}]> h)).
Proof.
  intros Ha Ht Ep Es En Et.
  pose proof (type_is_not_self _ _ _ _ Ha Ht) as Hne.
  unfold_calls. cbn [unpack5 py_iter]. rewrite Ha. step_lookup.
  rewrite Ep. step_lookup.
  rewrite Es. step_lookup.
  rewrite En. step_lookup.
  rewrite !lookup_insert_ne by congruence. rewrite Ht, Et.
  by rewrite !insert_insert_eq.
Qed.

(** C2.  On every [Attribute] instance, [serialize] returns the 5-tuple
    whose positions are, in order, the privacy data, the source-list data,
    the note-list data, the type data and the value, the first four being
    the results of the corresponding component's own serialization; the
    store is left as it was. *)
Theorem serialize_shape h (self : loc) a t :
  h !! self = Some (OAttribute a) ->
  h !! type a = Some (OAttributeType t) ->
  serialize self h =
    (Ret (PyTuple [base_serialize (private a);
                   base_serialize (source_list a);
                   base_serialize (note_list a);
                   type_serialize t;
                   value a]), h).
Proof. apply serialize_at. Qed.

(** C3.  A tuple whose arity is not five makes [unserialize] raise, with
    the store untouched; more generally every malformed input (the
    unpacking fails, or a nested routine rejects its element) makes it
    raise: the exception leaves the method. *)
Theorem unserialize_malformed_raises h (self : loc) (data : pyval) :
  (forall items, data = PyTuple items -> length items <> 5%nat ->
     raises (unserialize self data h).1 /\ (unserialize self data h).2 = h)
  /\
  (forall a t,
     h !! self = Some (OAttribute a) ->
     h !! type a = Some (OAttributeType t) ->
     malformed a t data ->
     raises (unserialize self data h).1).
Proof.
  split.
  - intros items -> L. apply unpack5_tuple_arity in L.
    unfold unserialize, mbind, M_bind, bind, lift.
    by destruct (unpack5 (PyTuple items)).
  - intros a t Ha Ht Hm. unfold malformed in Hm.
    destruct (unpack5 data) as [[[[[privacy sources] notes] the_type] v]|e]
      eqn:Eu.
    + rewrite (unserialize_unpacked _ _ _ _ _ _ _ _ _ _ Ha Ht Eu).
      destruct (base_unserialize (private a) privacy),
        (base_unserialize (source_list a) sources),
        (base_unserialize (note_list a) notes),
        (type_unserialize t the_type); cbn in *; tauto.
    + unfold unserialize, mbind, M_bind, bind, lift. by rewrite Eu.
Qed.

(** C4.  A default-constructed [Attribute] is a new object whose [type]
    refers to an [AttributeType] object in its default (empty) state and
    whose value is the empty string. *)
Theorem init_default h :
  exists (l : loc) h',
    __init__ None h = (Ret l, h') /\
    h !! l = None /\
    fields h' l =
      Some (base_init None, base_init None, base_init None, type_new,
            PyStr "").
Proof.
  unfold __init__, alloc, mbind, M_bind, bind.
  set (lt := fresh (dom h)).
  set (h1 := <[lt := OAttributeType type_new]> h).
  set (l := fresh (dom h1)).
  assert (Hlt : h !! lt = None) by (apply not_elem_of_dom, is_fresh).
  assert (Hl : h1 !! l = None) by (apply not_elem_of_dom, is_fresh).
  assert (Hne : lt <> l).
  { intros E. subst h1. rewrite <- E, lookup_insert_eq in Hl. done. }
  eexists l, _. split; [reflexivity|]. split.
  - subst h1. by rewrite lookup_insert_ne in Hl.
  - unfold fields. rewrite lookup_insert_eq. cbn [type].
    rewrite lookup_insert_ne by congruence. subst h1.
    by rewrite lookup_insert_eq.
Qed.

(** C9.  [set_value("")] then [get_value()] returns [""]: the empty value
    is stored as it is. *)
Theorem set_value_empty_get_value h (self : loc) a :
  h !! self = Some (OAttribute a) ->
  exists h',
    set_value self (PyStr "") h = (Ret tt, h') /\
    get_value self h' = (Ret (PyStr ""), h').
Proof.
  intros Ha. eexists. split.
  - unfold_calls. rewrite Ha. reflexivity.
  - unfold_calls. by rewrite lookup_insert_eq.
Qed.

(** The [AttributeType] object is shared after a copy: [set_type] on the
    copy is seen through the source as well. *)
Lemma copy_shares_type h (s : loc) a t (v : pyval) (t' : T) :
  h !! s = Some (OAttribute a) ->
  h !! type a = Some (OAttributeType t) ->
  type_set t v = Ret t' ->
  exists (l : loc) h1 h2,
    __init__ (Some s) h = (Ret l, h1) /\
    set_type l v h1 = (Ret tt, h2) /\
    h2 !! s = Some (OAttribute a) /\
    h2 !! type a = Some (OAttributeType t').
Proof.
  intros Ha Ht Es.
  pose proof (type_is_not_self _ _ _ _ Ha Ht) as Hne.
  unfold __init__.
  rewrite (bind_run _ _ _ _ _ (get_attribute_at _ _ _ Ha)).
  unfold alloc. set (l := fresh (dom h)).
  assert (Hl : h !! l = None) by (apply not_elem_of_dom, is_fresh).
  assert (l <> s) by congruence.
  assert (l <> type a) by congruence.
  eexists l, _, _. split; [reflexivity|].
  unfold set_type, mbind, M_bind, bind, lift, store, get_attribute,
    get_attrtype.
  rewrite lookup_insert_eq. cbn [type].
  rewrite lookup_insert_ne by done. rewrite Ht, Es.
  split; [reflexivity|].
  rewrite lookup_insert_eq.
  by rewrite !lookup_insert_ne by done.
Qed.

Context {PrivacyFaithful : BaseFaithful P}.
Context {SourceFaithful : BaseFaithful S}.
Context {NoteFaithful : BaseFaithful N}.
Context {TypeIsFaithful : TypeFaithful T}.

(** C1.  For a valid instance [x] and a valid receiver, [unserialize] applied
    to [serialize(x)] returns the receiver, whose five fields (privacy,
    source list, note list, type, value) are then those of [x]. *)
Theorem unserialize_serialize_roundtrip h (x self : loc) :
  is_Some (fields h x) ->
  is_Some (fields h self) ->
  exists (d : pyval) h',
    serialize x h = (Ret d, h) /\
    unserialize self d h = (Ret self, h') /\
    fields h' self = fields h x.
Proof.
  intros [fx Hx] [fs Hs].
  destruct (fields_inv _ _ _ Hx) as (ax & tx & Hax & Htx & ->).
  destruct (fields_inv _ _ _ Hs) as (a & t & Ha & Ht & ->).
  pose proof (type_is_not_self _ _ _ _ Ha Ht) as Hne.
  eexists _, _. split; [by apply (serialize_at _ _ _ _ Hax Htx)|]. split.
  - eapply unserialize_run; [exact Ha | exact Ht | ..];
      first [apply base_roundtrip | apply type_roundtrip].
  - rewrite Hx. unfold fields.
    rewrite lookup_insert_ne, lookup_insert_eq by congruence. cbn [type].
    by rewrite lookup_insert_eq.
Qed.

(** C5.  [Attribute(source=s)] on an existing instance [s] yields a new
    object whose privacy, source list, note list, type and value are those
    of [s]; every object that existed before, [s] and the [AttributeType]
    object it refers to among them, is left as it was. *)
Theorem init_copy h (s : loc) a :
  h !! s = Some (OAttribute a) ->
  exists (l : loc) a' h',
    __init__ (Some s) h = (Ret l, h') /\
    l <> s /\ h !! l = None /\
    h' !! l = Some (OAttribute a') /\
    private a' = private a /\
    source_list a' = source_list a /\
    note_list a' = note_list a /\
    type a' = type a /\
    value a' = value a /\
    (forall l0 : loc, l0 <> l -> h' !! l0 = h !! l0).
Proof.
  intros Ha. unfold __init__.
  rewrite (bind_run _ _ _ _ _ (get_attribute_at _ _ _ Ha)).
  unfold alloc. set (l := fresh (dom h)).
  assert (Hl : h !! l = None) by (apply not_elem_of_dom, is_fresh).
  eexists l, _, _. split; [reflexivity|].
  split; [congruence|]. split; [done|].
  split; [by rewrite lookup_insert_eq|].
  cbn [private source_list note_list type value].
  rewrite !base_copy. repeat split; try done.
  intros l0 Hne. by rewrite lookup_insert_ne.
Qed.

End WithComponents.

End AttributeSpec.

(** *** The concrete components are faithful *)

Module ComponentsSpec.
Import Attribute Components.

Lemma handles_roundtrip (l : list string) :
  unserialize_handles (PyList (PyStr <$> l)) = Ret l.
Proof.
  cbn. induction l as [|x l IH]; cbn; [done|]. by rewrite IH.
Qed.

Lemma PrivacyBase_faithful : BaseFaithful bool.
Proof. split; [done|]. by intros ? []. Qed.

Lemma SourceBase_faithful : BaseFaithful (list string).
Proof. split; [done|]. intros ? l. apply handles_roundtrip. Qed.

Lemma NoteBase_faithful : @BaseFaithful (list string) NoteBase.
Proof. split; [done|]. intros ? l. apply handles_roundtrip. Qed.

Lemma AttributeType_faithful : TypeFaithful attrtype.
Proof. split. by intros ? []. Qed.

End ComponentsSpec.

Module AttributeWitness.
Import Attribute Components ComponentsSpec Samples AttributeSpec.

Lemma serialize_shape_witness :
  store0 !! 2%positive = Some (OAttribute attr0) /\
  store0 !! type attr0 = Some (OAttributeType type0) /\
  serialize (NoteBase := NoteBase) 2%positive store0 =
    (Ret (PyTuple [PyBool true; PyList [PyStr "C0001"];
                   PyList [PyStr "N0001"; PyStr "N0002"];
                   PyTuple [PyInt 3; PyStr ""]; PyStr "blue"]), store0).
Proof.
  split; [reflexivity|]. split; [reflexivity|].
  exact (serialize_shape (NoteBase := NoteBase) store0 2%positive attr0 type0
           eq_refl eq_refl).
Defined.

Lemma unserialize_malformed_raises_witness :
  PyTuple [PyBool true; PyList []] = PyTuple [PyBool true; PyList []] /\
  length [PyBool true; PyList []] <> 5%nat /\
  raises (unserialize (NoteBase := NoteBase) 4%positive
            (PyTuple [PyBool true; PyList []]) store0).1 /\
  malformed (NoteBase := NoteBase) attr0 type0
    (PyTuple [PyInt 1; PyList []; PyList []; PyTuple [PyInt 3; PyStr ""];
              PyStr "x"]) /\
  raises (unserialize (NoteBase := NoteBase) 2%positive
            (PyTuple [PyInt 1; PyList []; PyList [];
                      PyTuple [PyInt 3; PyStr ""]; PyStr "x"]) store0).1.
Proof.
  assert (L : length [PyBool true; PyList []] <> 5%nat) by (cbn; lia).
  assert (Hm : malformed (NoteBase := NoteBase) attr0 type0
            (PyTuple [PyInt 1; PyList []; PyList [];
                      PyTuple [PyInt 3; PyStr ""]; PyStr "x"]))
    by (cbn; tauto).
  split; [reflexivity|]. split; [exact L|]. split.
  - exact (proj1 (proj1 (unserialize_malformed_raises (NoteBase := NoteBase) store0
                           4%positive (PyTuple [PyBool true; PyList []]))
                    _ eq_refl L)).
  - split; [exact Hm|].
    exact (proj2 (unserialize_malformed_raises (NoteBase := NoteBase) store0 2%positive _)
             attr0 type0 eq_refl eq_refl Hm).
Defined.

Lemma set_value_empty_get_value_witness :
  store0 !! 2%positive = Some (OAttribute attr0) /\
  exists h',
    set_value 2%positive (PyStr "") store0 = (Ret tt, h') /\
    get_value 2%positive h' = (Ret (PyStr ""), h').
Proof.
  split; [reflexivity|].
  exact (set_value_empty_get_value store0 2%positive attr0 eq_refl).
Defined.

Lemma unserialize_serialize_roundtrip_witness :
  is_Some (fields store0 2%positive) /\
  is_Some (fields store0 4%positive) /\
  exists d h',
    serialize (NoteBase := NoteBase) 2%positive store0 = (Ret d, store0) /\
    unserialize (NoteBase := NoteBase) 4%positive d store0 = (Ret 4%positive, h') /\
    fields h' 4%positive = fields store0 2%positive.
Proof.
  assert (H2 : is_Some (fields store0 2%positive))
    by (eexists; reflexivity).
  assert (H4 : is_Some (fields store0 4%positive))
    by (eexists; reflexivity).
  split; [exact H2|]. split; [exact H4|].
  exact (unserialize_serialize_roundtrip
           (PrivacyFaithful := PrivacyBase_faithful)
           (SourceFaithful := SourceBase_faithful)
           (NoteFaithful := NoteBase_faithful)
           (TypeIsFaithful := AttributeType_faithful) store0 2%positive
           4%positive H2 H4).
Defined.

Lemma init_copy_witness :
  store0 !! 2%positive = Some (OAttribute attr0) /\
  exists l a' h',
    __init__ (NoteBase := NoteBase) (Some 2%positive) store0 = (Ret l, h') /\
    l <> 2%positive /\ store0 !! l = None /\
    h' !! l = Some (OAttribute a') /\
    private a' = private attr0 /\
    source_list a' = source_list attr0 /\
    note_list a' = note_list attr0 /\
    type a' = type attr0 /\
    value a' = value attr0 /\
    (forall l0 : loc, l0 <> l -> h' !! l0 = store0 !! l0).
Proof.
  split; [reflexivity|].
  exact (init_copy
           (PrivacyFaithful := PrivacyBase_faithful)
           (SourceFaithful := SourceBase_faithful)
           (NoteFaithful := NoteBase_faithful) store0 2%positive attr0 eq_refl).
Defined.

End AttributeWitness.

(** ** CitationEmbedList *)

Module CitationEmbedListSpec.
Import CitationEmbedList.

(** The tab after one more toolkit call. *)
Lemma emit_run (e : event) (t : tab) :
  exists t',
    emit e t = (Ret tt, t') /\ data t' = data t /\
    callertitle t' = callertitle t /\ changed t' = changed t /\
    action t' = action t /\ log t' = log t ++ [e].
Proof. eexists. by repeat split. Qed.

Ltac unfold_tab_calls :=
  unfold try_except_WindowActiveError, open_editor, cannot_share,
    WarningDialog, rebuild, get_data, get, emit, set_data, set_changed,
    set_action;
  unfold mbind, M_bind, bind, lift, mret, M_ret, ret, raise.

(** C8.  [object_added] appends the new handle at the end of the tab's
    list: the handles present before keep their positions, the length
    grows by one; the list display is asked to rebuild, after the handle
    was registered and before the scroll to the new last row is queued. *)
Theorem object_added_appends (value : handle) (t : tab) :
  exists t',
    object_added value t = (Ret tt, t') /\
    data t' = data t ++ [value] /\
    length (data t') = Datatypes.S (length (data t)) /\
    (forall i h, data t !! i = Some h -> data t' !! i = Some h) /\
    data t' !! length (data t) = Some value /\
    changed t' = true /\
    log t' = log t ++ [EvRegisterHandles [value]; EvRebuild;
                       EvIdleAddScroll (Z.of_nat (length (data t)))].
Proof.
  eexists. split; [reflexivity|]. cbn.
  split; [done|]. split; [rewrite length_app; cbn; lia|].
  split; [intros i h E; by apply lookup_app_l_Some|].
  split; [by rewrite list_lookup_middle|].
  split; [done|].
  rewrite <- !app_assoc, length_app. cbn.
  replace (Z.of_nat (length (data t) + 1) - 1)%Z
    with (Z.of_nat (length (data t))) by lia.
  done.
Qed.

(** *** [count] and [remove] on lists *)

Lemma py_count_pos (h : handle) (l : list handle) :
  0 < py_count h l <-> h ∈ l.
Proof.
  induction l as [|y l IH]; cbn.
  - split; [lia|]. by intros ?%not_elem_of_nil.
  - rewrite elem_of_cons. case_decide; [subst; split; [auto|lia]|].
    rewrite IH. split; [auto|]. by intros [->|].
Qed.

Lemma py_remove_Some (h : handle) (l l' : list handle) :
  py_remove h l = Some l' ->
  filter (fun x => x <> h) l' = filter (fun x => x <> h) l.
Proof.
  revert l'. induction l as [|y l IH]; intros l' E; cbn in E; [done|].
  case_decide.
  - injection E as <-. subst y. by rewrite filter_cons_False by tauto.
  - destruct (py_remove h l) as [l1|]; [|done]. injection E as <-.
    rewrite !filter_cons_True by done. by rewrite (IH l1).
Qed.

Lemma py_remove_None (h : handle) (l : list handle) :
  py_remove h l = None -> py_count h l = 0.
Proof.
  induction l as [|y l IH]; cbn; [done|].
  case_decide; [done|]. destruct (py_remove h l); [done|]. auto.
Qed.

Lemma filter_absent (h : handle) (l : list handle) :
  h ∉ l -> filter (fun x => x <> h) l = l.
Proof.
  induction l as [|y l IH]; [done|]. rewrite not_elem_of_cons.
  intros [Hne Hl]. rewrite filter_cons_True by done. by rewrite IH.
Qed.

(** The tab with another list. *)
Abbreviation with_data d t := (set_data d t).2.

(** The [while] loop ends, without raising, on the list without [h]; the
    flag is set when there was something to remove. *)
Lemma remove_occurrences_spec (h : handle) (rb : bool) (t : tab) :
  remove_occurrences h rb t =
    (Ret (rb || bool_decide (h ∈ data t)),
     with_data (filter (fun x => x <> h) (data t)) t).
Proof.
  funelim (remove_occurrences h rb t).
  - assert (Hout : h ∉ data t) by (rewrite <- py_count_pos; lia).
    rewrite (bool_decide_eq_false_2 _ Hout), orb_false_r.
    rewrite filter_absent by done. by destruct t.
  - match goal with
    | IH : remove_occurrences _ _ _ = (_, _) |- _ => rewrite IH
    end.
    match goal with
    | E : py_remove _ _ = Some _ |- _ =>
        cbn [data]; rewrite (py_remove_Some _ _ _ E)
    end.
    assert (Hin : h ∈ data t) by by apply py_count_pos.
    rewrite (bool_decide_eq_true_2 _ Hin). by rewrite orb_true_r.
  - match goal with
    | E : py_remove _ _ = None |- _ =>
        pose proof (py_remove_None _ _ E); lia
    end.
Qed.

Lemma filter_deleted_nil (d : list handle) :
  filter (fun x => x ∉ ([] : list handle)) d = d.
Proof.
  induction d as [|y d IH]; [done|].
  rewrite filter_cons_True by apply not_elem_of_nil. by rewrite IH.
Qed.

Lemma filter_deleted_cons (h : handle) (rest d : list handle) :
  filter (fun x => x ∉ rest) (filter (fun x => x <> h) d) =
  filter (fun x => x ∉ h :: rest) d.
Proof.
  induction d as [|y d IH]; [done|].
  destruct (decide (y = h)) as [->|Hne].
  - rewrite filter_cons_False by tauto.
    rewrite (filter_cons_False _ h) by (rewrite elem_of_cons; tauto).
    done.
  - rewrite filter_cons_True by done.
    destruct (decide (y ∈ rest)) as [Hin|Hout].
    + rewrite filter_cons_False by tauto.
      rewrite (filter_cons_False _ y) by (rewrite elem_of_cons; tauto).
      done.
    + rewrite filter_cons_True by done.
      rewrite (filter_cons_True _ y) by (rewrite elem_of_cons; tauto).
      by rewrite IH.
Qed.

Lemma filter_none_deleted (dels d : list handle) :
  (forall h, h ∈ dels -> h ∉ d) -> filter (fun x => x ∉ dels) d = d.
Proof.
  induction d as [|y d IH]; intros Hnone; [done|].
  rewrite filter_cons_True.
  - rewrite IH; [done|]. intros h Hin Hd. apply (Hnone h Hin).
    by apply elem_of_cons; right.
  - intros Hin. apply (Hnone y Hin). by apply elem_of_cons; left.
Qed.

(** The [for] loop: what is left is the list without the deleted handles,
    and the flag tells whether one of them was present. *)
Lemma for_each_deleted_spec (dels : list handle) (rb : bool) (t : tab) :
  exists r : bool,
    for_each_deleted dels rb t =
      (Ret r, with_data (filter (fun x => x ∉ dels) (data t)) t) /\
    (r = true <-> rb = true \/ exists h, h ∈ dels /\ h ∈ data t).
Proof.
  revert rb t. induction dels as [|h rest IH]; intros rb t.
  - exists rb. split.
    + cbn. rewrite filter_deleted_nil. by destruct t.
    + split; [auto|]. intros [|(h & ?%not_elem_of_nil & _)]; done.
  - cbn [for_each_deleted].
    rewrite (bind_run _ _ _ _ _ (remove_occurrences_spec h rb t)).
    destruct (IH (rb || bool_decide (h ∈ data t))
                 (with_data (filter (fun x => x <> h) (data t)) t))
      as (r & E & Hr).
    exists r. split.
    + rewrite E. cbn [set_data snd data callertitle changed action log].
      by rewrite filter_deleted_cons.
    + rewrite Hr, orb_true_iff, bool_decide_eq_true. cbn [set_data snd data].
      split.
      * intros [[?|Hin]|(h' & Hr' & Hd)]; [by left| |].
        -- right. exists h. split; [apply elem_of_cons; auto|done].
        -- right. exists h'. split; [apply elem_of_cons; auto|].
           by apply list_elem_of_filter in Hd as [_ ?].
      * intros [?|(h' & [->|Hr']%elem_of_cons & Hd)]; [by left; left| |].
        -- left. by right.
        -- destruct (decide (h' = h)) as [->|Hne]; [left; by right|].
           right. exists h'. split; [done|]. by apply list_elem_of_filter.
Qed.

(** C10.  [citation_delete] returns, without raising, with the tab's list
    reduced to the handles that are not in the deleted list, in their
    order: no deleted handle occurs in it any more.  The list display is
    asked to rebuild once when some deleted handle was present, and not at
    all when none was; nothing else changes. *)
Theorem citation_delete_removes (dels : list handle) (t : tab) :
  exists t',
    citation_delete dels t = (Ret tt, t') /\
    data t' = filter (fun x => x ∉ dels) (data t) /\
    (forall h, h ∈ dels -> h ∉ data t') /\
    data t' `sublist_of` data t /\
    ((exists h, h ∈ dels /\ h ∈ data t) -> log t' = log t ++ [EvRebuild]) /\
    ((forall h, h ∈ dels -> h ∉ data t) -> t' = t) /\
    callertitle t' = callertitle t /\ changed t' = changed t /\
    action t' = action t.
Proof.
  destruct (for_each_deleted_spec dels false t) as (r & E & Hr).
  unfold citation_delete. rewrite (bind_run _ _ _ _ _ E).
  set (t1 := with_data (filter (fun x => x ∉ dels) (data t)) t).
  assert (Hgone : forall h, h ∈ dels ->
            h ∉ filter (fun x => x ∉ dels) (data t)).
  { intros h Hin [Hout _]%list_elem_of_filter. done. }
  destruct r.
  - destruct (emit_run EvRebuild t1) as (t' & Et & Hd & Hc & Hch & Ha & Hl).
    exists t'. split; [exact Et|]. rewrite Hd, Hc, Hch, Ha, Hl.
    split; [done|]. split; [exact Hgone|].
    split; [apply sublist_filter|]. split; [done|].
    split; [|done]. intros Hnone.
    destruct (proj1 Hr eq_refl) as [?|(h & Hin & Hd')]; [done|].
    by destruct (Hnone h Hin).
  - exists t1. split; [done|]. split; [done|]. split; [exact Hgone|].
    split; [apply sublist_filter|]. split.
    + intros Hex. assert (false = true) by (apply Hr; by right). done.
    + split; [|done]. intros Hnone. subst t1. cbn.
      rewrite filter_none_deleted by done. by destruct t.
Qed.

(** *** Opening editors *)

(** One guarded editor call: the constructor's outcome decides. *)
Lemma guarded_editor_run (env : environment)
    (req : option string -> editor_request) (handler : M tab unit)
    (t : tab) :
  try_except_WindowActiveError
    (ct ← get callertitle; open_editor env (req ct)) handler t =
  match EditCitation env (req (callertitle t)) with
  | Ret _ => emit (EvEditCitation (req (callertitle t))) t
  | Raise WindowActiveError => handler t
  | Raise e => (Raise e, t)
  end.
Proof.
  unfold_tab_calls. cbn.
  by destruct (EditCitation env (req (callertitle t))) as [|[]].
Qed.

(** A guarded editor call raises only what the constructor raised. *)
Lemma guarded_editor_raise (env : environment)
    (req : option string -> editor_request) (t : tab) (e : exn) :
  (try_except_WindowActiveError
     (ct ← get callertitle; open_editor env (req ct))
     (cannot_share env) t).1 = Raise e ->
  exists r, EditCitation env r = Raise e.
Proof.
  rewrite guarded_editor_run. intros E. exists (req (callertitle t)).
  by destruct (EditCitation env (req (callertitle t))) as [|[]];
    cbn in E; try done.
Qed.

(** C7.  When the [EditCitation] call a flow makes raises
    [WindowActiveError], the flow does not let it through, whatever the
    constructor does on other requests: add and edit return with the tab
    exactly as it was (nothing logged, so no dialog); share and the two
    drag flows return after showing the "cannot share" warning dialog;
    clone returns as well. *)
Theorem window_active_aborts (env : environment) (t : tab) :
  (EditCitation env (request_new (ObjSource None) (callertitle t)) =
     Raise WindowActiveError ->
   add_button_clicked env t = (Ret tt, t)) /\
  (forall h c,
     get_selected env = Some h ->
     get_citation_from_handle env h = Ret c ->
     EditCitation env (request_edit c (callertitle t)) =
       Raise WindowActiveError ->
     edit_button_clicked env t = (Ret tt, t)) /\
  (is_source (sel_run env) = true ->
   EditCitation env (request_new (sel_run env) (callertitle t)) =
     Raise WindowActiveError ->
   share_button_clicked env t = (Ret tt, warned env t)) /\
  (is_citation (sel_run env) = true ->
   EditCitation env (request_existing (sel_run env) (callertitle t)) =
     Raise WindowActiveError ->
   share_button_clicked env t = (Ret tt, warned env t)) /\
  (forall h c,
     truthy_handle (Some h) = true ->
     get_citation_from_handle env h = Ret c ->
     is_citation c = true ->
     EditCitation env (request_existing c (callertitle t)) =
       Raise WindowActiveError ->
     _handle_drag env (Some h) t = (Ret tt, warned env t)) /\
  (forall h c,
     truthy_handle (Some h) = true ->
     get_source_from_handle env h = Ret c ->
     is_source c = true ->
     EditCitation env (request_new c (callertitle t)) =
       Raise WindowActiveError ->
     handle_extra_type env (Some h) t = (Ret tt, warned env t)) /\
  (forall h c citation source,
     get_selected env = Some h ->
     get_citation_from_handle env h = Ret c ->
     prepare_clone env c = Ret (citation, source) ->
     EditCitation env (request_clone citation source (callertitle t)) =
       Raise WindowActiveError ->
     (clone_button_clicked env t).1 = Ret tt).
Proof.
  unfold request_new, request_existing, request_edit, request_clone.
  split; [|split; [|split; [|split; [|split; [|split]]]]].
  - intros Busy. unfold add_button_clicked.
    rewrite guarded_editor_run. by rewrite Busy.
  - intros h c Hs Hc Busy. unfold edit_button_clicked. rewrite Hs.
    destruct (truthy_handle (Some h)); [|done].
    rewrite (bind_run _ _ t t c) by (unfold lift; by rewrite Hc).
    rewrite guarded_editor_run. by rewrite Busy.
  - unfold share_button_clicked.
    destruct (sel_run env) as [|s|c|b]; try done.
    intros _ Busy. cbn [truthy is_source is_citation].
    rewrite guarded_editor_run. by rewrite Busy.
  - unfold share_button_clicked.
    destruct (sel_run env) as [|s|c|b]; try done.
    intros _ Busy. cbn [truthy is_source is_citation].
    rewrite guarded_editor_run. by rewrite Busy.
  - intros h c Hh Hc Hk Busy. unfold _handle_drag. rewrite Hh.
    rewrite (bind_run _ _ t t c) by (unfold lift; by rewrite Hc).
    rewrite Hk, guarded_editor_run. by rewrite Busy.
  - intros h c Hh Hc Hk Busy. unfold handle_extra_type. rewrite Hh.
    rewrite (bind_run _ _ t t c) by (unfold lift; by rewrite Hc).
    rewrite Hk, guarded_editor_run. by rewrite Busy.
  - intros h c citation source Hs Hc Hp Busy.
    unfold clone_button_clicked. rewrite Hs.
    destruct (truthy_handle (Some h)); [|done].
    rewrite (bind_run _ _ t t c) by (unfold lift; by rewrite Hc).
    unfold_tab_calls. rewrite Hp. cbn. by rewrite Busy.
Qed.

(** C6 (as the code has it).  Share: an empty selection does nothing; a
    non-empty one that is neither a source nor a citation raises the
    selection error, which leaves the handler with the tab untouched; for
    a source or a citation the handler raises nothing of its own.  Drag:
    an empty handle does nothing; for a non-empty one the citation drag
    raises the selection error exactly when the object looked up is not a
    citation, the source drag exactly when it is not a source, and for
    the expected kind the handler raises nothing of its own. *)
Theorem selection_error_guarded (env : environment) (t : tab) :
  (truthy (sel_run env) = false ->
     share_button_clicked env t = (Ret tt, t)) /\
  (truthy (sel_run env) = true ->
   is_source (sel_run env) = false -> is_citation (sel_run env) = false ->
     share_button_clicked env t = (Raise selection_error, t)) /\
  (is_source (sel_run env) || is_citation (sel_run env) = true ->
     forall e, (share_button_clicked env t).1 = Raise e ->
       exists req, EditCitation env req = Raise e) /\
  (forall h, truthy_handle h = false ->
     _handle_drag env h t = (Ret tt, t) /\
     handle_extra_type env h t = (Ret tt, t)) /\
  (forall h o, truthy_handle (Some h) = true ->
     get_citation_from_handle env h = Ret o ->
     (is_citation o = false ->
        _handle_drag env (Some h) t = (Raise selection_error, t)) /\
     (is_citation o = true ->
        forall e, (_handle_drag env (Some h) t).1 = Raise e ->
          exists req, EditCitation env req = Raise e)) /\
  (forall h o, truthy_handle (Some h) = true ->
     get_source_from_handle env h = Ret o ->
     (is_source o = false ->
        handle_extra_type env (Some h) t = (Raise selection_error, t)) /\
     (is_source o = true ->
        forall e, (handle_extra_type env (Some h) t).1 = Raise e ->
          exists req, EditCitation env req = Raise e)).
Proof.
  split; [|split; [|split; [|split; [|split]]]].
  - intros Hf. unfold share_button_clicked. by rewrite Hf.
  - intros Ht Hs Hc. unfold share_button_clicked. by rewrite Ht, Hs, Hc.
  - intros Hk e. unfold share_button_clicked.
    destruct (sel_run env) as [|s|c|b]; try done;
      cbn [truthy is_source is_citation]; apply guarded_editor_raise.
  - intros [h|] Hf; [|done]. unfold _handle_drag, handle_extra_type.
    by rewrite Hf.
  - intros h o Hh Ho. unfold _handle_drag. rewrite Hh.
    rewrite (bind_run _ _ t t o) by (unfold lift; by rewrite Ho).
    split; intros ->; [done|]. intros e. apply guarded_editor_raise.
  - intros h o Hh Ho. unfold handle_extra_type. rewrite Hh.
    rewrite (bind_run _ _ t t o) by (unfold lift; by rewrite Ho).
    split; intros ->; [done|]. intros e. apply guarded_editor_raise.
Qed.

End CitationEmbedListSpec.

Module CitationEmbedListWitness.
Import CitationEmbedList CitationEmbedListSpec Samples.

(** C6 as stated fails when the selector is closed without a choice: the
    object obtained, [None], is neither a source nor a citation, and the
    share flow returns without raising. *)
Lemma selection_error_not_raised_without_selection :
  ~ (is_source (sel_run env_cancel) = false /\
     is_citation (sel_run env_cancel) = false ->
     (share_button_clicked env_cancel tab0).1 = Raise selection_error).
Proof. intros H. by specialize (H (conj eq_refl eq_refl)). Qed.

Lemma selection_error_guarded_witness :
  truthy (sel_run env_cancel) = false /\
  share_button_clicked env_cancel tab0 = (Ret tt, tab0) /\
  truthy (sel_run env_stray) = true /\
  is_source (sel_run env_stray) = false /\
  is_citation (sel_run env_stray) = false /\
  share_button_clicked env_stray tab0 = (Raise selection_error, tab0) /\
  truthy_handle (Some "s9") = true /\
  get_source_from_handle env_stray "s9" = Ret ObjNone /\
  is_source ObjNone = false /\
  handle_extra_type env_stray (Some "s9") tab0 =
    (Raise selection_error, tab0).
Proof.
  pose proof (selection_error_guarded env_cancel tab0) as (Hc & _).
  pose proof (selection_error_guarded env_stray tab0)
    as (_ & Hs & _ & _ & _ & Hx).
  split; [reflexivity|]. split; [exact (Hc eq_refl)|].
  do 3 (split; [reflexivity|]).
  split; [exact (Hs eq_refl eq_refl eq_refl)|].
  do 3 (split; [reflexivity|]).
  exact (proj1 (Hx "s9" ObjNone eq_refl eq_refl) eq_refl).
Defined.

(** The sample tab holds [c1] twice: both occurrences go, [c2] stays, and
    one rebuild is asked for. *)
Example citation_delete_sample :
  citation_delete ["c1"; "c9"] tab0 =
    (Ret tt, {| data := ["c2"]; callertitle := Some "Person";
                changed := false; action := None; log := [EvRebuild] |}).
Proof. vm_compute. reflexivity. Qed.

Example citation_delete_nothing :
  citation_delete ["c9"] tab0 = (Ret tt, tab0).
Proof. vm_compute. reflexivity. Qed.

Lemma window_active_aborts_witness :
  EditCitation env_busy (request_new (ObjSource None) (callertitle tab0)) =
    Raise WindowActiveError /\
  add_button_clicked env_busy tab0 = (Ret tt, tab0) /\
  EditCitation env_one (request_new (ObjSource None) (callertitle tab0)) =
    Ret tt /\
  EditCitation env_one
    (request_edit (ObjCitation (Some "c1")) (callertitle tab0)) =
    Raise WindowActiveError /\
  edit_button_clicked env_one tab0 = (Ret tt, tab0) /\
  EditCitation env_one (request_new (sel_run env_one) (callertitle tab0)) =
    Raise WindowActiveError /\
  share_button_clicked env_one tab0 = (Ret tt, warned env_one tab0) /\
  EditCitation env_one
    (request_existing (ObjCitation (Some "c1")) (callertitle tab0)) =
    Raise WindowActiveError /\
  _handle_drag env_one (Some "c1") tab0 = (Ret tt, warned env_one tab0) /\
  handle_extra_type env_one (Some "s1") tab0 =
    (Ret tt, warned env_one tab0) /\
  (clone_button_clicked env_one tab0).1 = Ret tt.
Proof.
  pose proof (window_active_aborts env_busy tab0) as (Ha & _).
  pose proof (window_active_aborts env_one tab0)
    as (_ & He & Hs & _ & Hd & Hx & Hc).
  split; [reflexivity|]. split; [exact (Ha eq_refl)|].
  split; [reflexivity|]. split; [reflexivity|].
  split; [exact (He "c1" _ eq_refl eq_refl eq_refl)|].
  split; [reflexivity|]. split; [exact (Hs eq_refl eq_refl)|].
  split; [reflexivity|].
  split; [exact (Hd "c1" _ eq_refl eq_refl eq_refl eq_refl)|].
  split; [exact (Hx "s1" _ eq_refl eq_refl eq_refl eq_refl)|].
  exact (Hc "c1" _ _ _ eq_refl eq_refl eq_refl eq_refl).
Defined.

End CitationEmbedListWitness.

(** ** Attribute: sharing, partial updates, composition *)

Module AttributeMoreSpec.
Import Attribute AttributeSpec.

Section WithComponents.

Context {P S N T : Type}.
Context {PrivacyBase : BaseComponent P}.
Context {SourceBase : BaseComponent S}.
Context {NoteBase : BaseComponent N}.
Context {AttributeType : GrampsType T}.

Abbreviation attribute := (attribute P S N).
Abbreviation heap := (gmap loc (obj P S N T)).

Implicit Types (h : heap) (a : attribute) (t : T).

Ltac step_lookup :=
  repeat first
    [ rewrite lookup_insert_eq
    | rewrite lookup_insert_ne by congruence ];
  cbn [private source_list note_list type value].

Ltac unfold_calls :=
  unfold unserialize, serialize, set_private, set_source_list, set_note_list,
    set_value, get_value, set_type, get_type, get_text_data_list,
    get_text_data_child_list, get_handle_referents;
  unfold mbind, M_bind, bind, lift, store, get_attribute, get_attrtype,
    mret, M_ret, ret.

(** [Attribute()] adds two new objects to the store. *)
Lemma init_default_run h :
  exists lt l : loc,
    h !! lt = None /\ h !! l = None /\ lt <> l /\
    __init__ None h =
      (Ret l,
       <[l := OAttribute {| private := base_init None;
                            source_list := base_init None;
                            note_list := base_init None;
                            type := lt; value := PyStr "" |}]>
         (<[lt := OAttributeType type_new]> h)).
Proof.
  unfold __init__, alloc, mbind, M_bind, bind.
  pose proof (is_fresh (dom h)) as F1.
  pose proof (is_fresh (dom (<[fresh (dom h) := OAttributeType type_new]> h)))
    as F2.
  apply not_elem_of_dom in F1, F2.
  eexists _, _. split; [exact F1|].
  assert (Hne : fresh (dom h) <>
                fresh (dom (<[fresh (dom h) := OAttributeType type_new]> h))).
  { intros E. rewrite <- E in F2. by rewrite lookup_insert_eq in F2. }
  split; [|split; [exact Hne|reflexivity]].
  by rewrite lookup_insert_ne in F2.
Qed.

(** Two default-constructed attributes have [AttributeType] objects of
    their own: [set_type] on the second leaves the first as constructed. *)
Theorem defaults_do_not_share h (v : pyval) (t' : T) :
  type_set type_new v = Ret t' ->
  exists (l1 l2 : loc) h1 h2 h3,
    __init__ None h = (Ret l1, h1) /\
    __init__ None h1 = (Ret l2, h2) /\
    set_type l2 v h2 = (Ret tt, h3) /\
    l1 <> l2 /\
    fields h3 l1 =
      Some (base_init None, base_init None, base_init None, type_new,
            PyStr "") /\
    fields h3 l2 =
      Some (base_init None, base_init None, base_init None, t', PyStr "").
Proof.
  intros Es.
  destruct (init_default_run h) as (t1 & l1 & Ft1 & Fl1 & Hn1 & E1).
  remember (__init__ None h).2 as h1 eqn:Eh1. rewrite E1 in Eh1.
  cbn [snd] in Eh1.
  destruct (init_default_run h1) as (t2 & l2 & Ft2 & Fl2 & Hn2 & E2).
  assert (l1 <> t2 /\ l1 <> l2) as [? ?].
  { split; intros E; subst h1; rewrite <- E in *;
      by rewrite lookup_insert_eq in *. }
  assert (t1 <> t2 /\ t1 <> l2) as [? ?].
  { split; intros E; subst h1; rewrite <- E in *;
      rewrite lookup_insert_ne in * by done;
      by rewrite lookup_insert_eq in *. }
  eexists l1, l2, h1, _, _. split; [by rewrite E1, Eh1|].
  split; [exact E2|].
  unfold set_type, mbind, M_bind, bind, lift, store, get_attribute,
    get_attrtype.
  rewrite lookup_insert_eq. cbn [type].
  rewrite lookup_insert_ne by done. rewrite lookup_insert_eq, Es.
  split; [reflexivity|]. split; [done|]. unfold fields. split.
  - rewrite 3!lookup_insert_ne by congruence. subst h1.
    rewrite lookup_insert_eq. cbn [type].
    rewrite 3!lookup_insert_ne by congruence.
    rewrite lookup_insert_ne by done. by rewrite lookup_insert_eq.
  - rewrite lookup_insert_ne by congruence. rewrite lookup_insert_eq.
    cbn [type]. by rewrite lookup_insert_eq.
Qed.

(** [unserialize] is not all-or-nothing.  When the first nested routine
    rejects its element the value is already assigned; when the last one
    (the type's) does, privacy, source list, note list and value are the
    new ones while the type is still the old one. *)
Theorem unserialize_partial_update h (self : loc) a t
    (privacy sources notes the_type v : pyval) (e : exn) :
  h !! self = Some (OAttribute a) ->
  h !! type a = Some (OAttributeType t) ->
  (base_unserialize (private a) privacy = Raise e ->
   unserialize self (PyTuple [privacy; sources; notes; the_type; v]) h =
     (Raise e, <[self := OAttribute (with_value a v)]> h)) /\
  (forall (p : P) (s : S) (n : N),
     base_unserialize (private a) privacy = Ret p ->
     base_unserialize (source_list a) sources = Ret s ->
     base_unserialize (note_list a) notes = Ret n ->
     type_unserialize t the_type = Raise e ->
     unserialize self (PyTuple [privacy; sources; notes; the_type; v]) h =
       (Raise e,
        <[self := OAttribute {| private := p; source_list := s;
                                note_list := n; type := type a;
                                value := v |}]> h)).
Proof.
  intros Ha Ht.
  pose proof (type_is_not_self _ _ _ _ Ha Ht) as Hne.
  split.
  - intros Ep. unfold_calls. cbn [unpack5 py_iter]. rewrite Ha. step_lookup.
    by rewrite Ep.
  - intros p s n Ep Es En Et. unfold_calls. cbn [unpack5 py_iter].
    rewrite Ha. step_lookup.
    rewrite Ep. step_lookup.
    rewrite Es. step_lookup.
    rewrite En. step_lookup.
    rewrite !lookup_insert_ne by congruence. rewrite Ht, Et.
    by rewrite !insert_insert_eq.
Qed.

(** [set_value] touches the value only: the serialization afterwards is
    the one before with the fifth position replaced, the text data list is
    the new value alone, and the referents are the source list as it
    was. *)
Theorem set_value_only_value h (self : loc) a t (v : pyval) :
  h !! self = Some (OAttribute a) ->
  h !! type a = Some (OAttributeType t) ->
  exists h',
    set_value self v h = (Ret tt, h') /\
    serialize self h' =
      (Ret (PyTuple [base_serialize (private a);
                     base_serialize (source_list a);
                     base_serialize (note_list a);
                     type_serialize t; v]), h') /\
    get_text_data_list self h' = (Ret [v], h') /\
    get_text_data_child_list self h' = (Ret (source_list a), h') /\
    get_handle_referents self h' = (Ret (source_list a), h') /\
    (forall l : loc, l <> self -> h' !! l = h !! l).
Proof.
  intros Ha Ht.
  pose proof (type_is_not_self _ _ _ _ Ha Ht) as Hne.
  eexists. split; [unfold_calls; by rewrite Ha|].
  split; [|split; [|split; [|split]]].
  - unfold_calls. step_lookup. rewrite lookup_insert_ne by done.
    by rewrite Ht.
  - unfold_calls. by step_lookup.
  - unfold_calls. by step_lookup.
  - unfold_calls. by step_lookup.
  - intros l Hl. by rewrite lookup_insert_ne.
Qed.

(** Loading into a copy reaches the original: after [c = Attribute(s)] and
    a successful [c.unserialize(data)], the type of [s] is the one decoded
    from [data], while the other four fields of [s] are as before. *)
Theorem unserialize_into_copy_retypes_source h (s : loc) a t
    (privacy sources notes the_type v : pyval) (p : P) (sl : S) (n : N)
    (t' : T) :
  h !! s = Some (OAttribute a) ->
  h !! type a = Some (OAttributeType t) ->
  base_unserialize (base_init (Some (private a))) privacy = Ret p ->
  base_unserialize (base_init (Some (source_list a))) sources = Ret sl ->
  base_unserialize (base_init (Some (note_list a))) notes = Ret n ->
  type_unserialize t the_type = Ret t' ->
  exists (c : loc) h1 h2,
    __init__ (Some s) h = (Ret c, h1) /\
    unserialize c (PyTuple [privacy; sources; notes; the_type; v]) h1 =
      (Ret c, h2) /\
    fields h2 c = Some (p, sl, n, t', v) /\
    fields h2 s =
      Some (private a, source_list a, note_list a, t', value a).
Proof.
  intros Ha Ht Ep Es En Et.
  pose proof (type_is_not_self _ _ _ _ Ha Ht) as Hne.
  unfold __init__.
  rewrite (bind_run _ _ _ _ _ (get_attribute_at _ _ _ Ha)).
  unfold alloc. set (c := fresh (dom h)).
  assert (Hc : h !! c = None) by (apply not_elem_of_dom, is_fresh).
  assert (c <> s) by congruence.
  assert (c <> type a) by congruence.
  eexists c, _, _. split; [reflexivity|]. split.
  - eapply unserialize_run.
    + by rewrite lookup_insert_eq.
    + cbn [type]. by rewrite lookup_insert_ne, Ht.
    + exact Ep.
    + exact Es.
    + exact En.
    + exact Et.
  - cbn [type]. unfold fields. split.
    + rewrite lookup_insert_ne, lookup_insert_eq by done. cbn [type].
      by rewrite lookup_insert_eq.
    + rewrite !lookup_insert_ne by done. rewrite Ha.
      by rewrite lookup_insert_eq.
Qed.

Context {PrivacyFaithful : BaseFaithful P}.
Context {SourceFaithful : BaseFaithful S}.
Context {NoteFaithful : BaseFaithful N}.
Context {TypeIsFaithful : TypeFaithful T}.

(** Restoring an object from its own serialization changes nothing: the
    store after [x.unserialize(x.serialize())] is the store before. *)
Theorem unserialize_own_serialization h (x : loc) :
  is_Some (fields h x) ->
  exists d : pyval,
    serialize x h = (Ret d, h) /\ unserialize x d h = (Ret x, h).
Proof.
  intros [f Hx].
  destruct (fields_inv _ _ _ Hx) as (a & t & Ha & Ht & ->).
  eexists. split; [by apply (serialize_at _ _ _ _ Ha Ht)|].
  erewrite unserialize_run; [|exact Ha|exact Ht|..];
    try first [apply base_roundtrip | apply type_roundtrip].
  f_equal. rewrite (insert_id h x) by (rewrite Ha; by destruct a).
  by rewrite insert_id.
Qed.

End WithComponents.

End AttributeMoreSpec.

(** ** CitationEmbedList: deleting, updating, merging *)

Module CitationEmbedListMoreSpec.
Import CitationEmbedList CitationEmbedListView CitationEmbedListSpec.

Abbreviation with_data d t := (set_data d t).2.

(** [citation_delete] in one step: the filtered tab, rebuilt or not. *)
Lemma citation_delete_run (dels : list handle) (t : tab) :
  exists r : bool,
    citation_delete dels t =
      (if r then rebuild else ret tt)
        (with_data (filter (fun x => x ∉ dels) (data t)) t) /\
    (r = true <-> exists h, h ∈ dels /\ h ∈ data t).
Proof.
  destruct (for_each_deleted_spec dels false t) as (r & E & Hr).
  exists r. split.
  - unfold citation_delete. by rewrite (bind_run _ _ _ _ _ E).
  - rewrite Hr. split; [by intros [|]|by right].
Qed.

Lemma with_data_same (t : tab) : with_data (data t) t = t.
Proof. by destruct t. Qed.

(** Deleting the same handles again changes nothing and asks for no
    rebuild: the second call returns the tab it was given. *)
Theorem citation_delete_idempotent (dels : list handle) (t : tab) :
  exists t1,
    citation_delete dels t = (Ret tt, t1) /\
    citation_delete dels t1 = (Ret tt, t1).
Proof.
  destruct (citation_delete_run dels t) as (r & E & Hr).
  set (t0 := with_data (filter (fun x => x ∉ dels) (data t)) t) in *.
  assert (Hgone : forall h, h ∈ dels -> h ∉ data t0).
  { intros h Hin [Hout _]%list_elem_of_filter. done. }
  assert (Hsecond : forall t1, data t1 = data t0 ->
            citation_delete dels t1 = (Ret tt, t1)).
  { intros t1 Hd. destruct (citation_delete_run dels t1) as (r1 & E1 & Hr1).
    rewrite E1. destruct r1.
    - destruct (proj1 Hr1 eq_refl) as (h & Hin & Hh).
      rewrite Hd in Hh. by destruct (Hgone h Hin).
    - rewrite filter_none_deleted; [by rewrite with_data_same|].
      rewrite Hd. exact Hgone. }
  destruct r.
  - destruct (emit_run EvRebuild t0) as (t1 & Et & Hd & _).
    exists t1. rewrite E. split; [exact Et|]. by apply Hsecond.
  - exists t0. rewrite E. split; [done|]. by apply Hsecond.
Qed.

(** A handle added by [object_added] and then reported deleted is gone
    together with every earlier occurrence of it: the list is back to what
    it was exactly when the handle was not in it before.  The deletion
    asks for one rebuild. *)
Theorem object_added_then_deleted (value : handle) (t : tab) :
  exists t1 t2,
    object_added value t = (Ret tt, t1) /\
    citation_delete [value] t1 = (Ret tt, t2) /\
    data t2 = filter (fun x => x <> value) (data t) /\
    (value ∉ data t -> data t2 = data t) /\
    log t2 = log t1 ++ [EvRebuild].
Proof.
  remember (object_added value t).2 as t1 eqn:Et1.
  assert (E1 : object_added value t = (Ret tt, t1)) by by rewrite Et1.
  assert (D1 : data t1 = data t ++ [value]) by by rewrite Et1.
  clear Et1.
  destruct (citation_delete_run [value] t1) as (r & E & Hr).
  assert (r = true) as ->.
  { apply Hr. exists value. split; [by apply list_elem_of_singleton|].
    rewrite D1. apply elem_of_app. right. by apply list_elem_of_singleton. }
  destruct (emit_run EvRebuild
              (with_data (filter (fun x => x ∉ [value]) (data t1)) t1))
    as (t2 & Et & Hd & _ & _ & _ & Hl).
  exists t1, t2. split; [exact E1|]. split; [by rewrite E|].
  assert (Hf : data t2 = filter (fun x => x <> value) (data t)).
  { rewrite Hd. cbn [set_data snd data]. rewrite D1, filter_app.
    rewrite (filter_cons_False _ value)
      by (intros H; apply H; by apply list_elem_of_singleton).
    rewrite filter_nil, app_nil_r.
    apply list_filter_iff. intros x. by rewrite list_elem_of_singleton. }
  split; [exact Hf|]. split; [|by rewrite Hl].
  intros Hout. rewrite Hf. by apply filter_absent.
Qed.

(** Two notifications in a row leave the same list as one notification
    with both batches. *)
Theorem citation_delete_in_two (dels1 dels2 : list handle) (t : tab) :
  exists t1 t2 t12,
    citation_delete dels1 t = (Ret tt, t1) /\
    citation_delete dels2 t1 = (Ret tt, t2) /\
    citation_delete (dels1 ++ dels2) t = (Ret tt, t12) /\
    data t2 = data t12.
Proof.
  assert (Hrun : forall dels t0, exists t',
            citation_delete dels t0 = (Ret tt, t') /\
            data t' = filter (fun x => x ∉ dels) (data t0)).
  { intros dels t0. destruct (citation_delete_run dels t0) as ([] & E & _).
    - destruct (emit_run EvRebuild
                  (with_data (filter (fun x => x ∉ dels) (data t0)) t0))
        as (t' & Et & Hd & _).
      exists t'. by rewrite E.
    - eexists. by rewrite E. }
  destruct (Hrun dels1 t) as (t1 & E1 & D1).
  destruct (Hrun dels2 t1) as (t2 & E2 & D2).
  destruct (Hrun (dels1 ++ dels2) t) as (t12 & E12 & D12).
  exists t1, t2, t12. repeat split; try done.
  rewrite D2, D1, D12, list_filter_filter.
  apply list_filter_iff. intros x. rewrite elem_of_app. tauto.
Qed.

(** [citation_update] never touches the list: it asks for exactly one
    rebuild when some updated handle is in the tab, however many are, and
    does nothing otherwise. *)
Theorem citation_update_rebuilds_once (upd : list handle) (t : tab) :
  ((exists h, h ∈ upd /\ h ∈ data t) ->
     exists t', citation_update upd t = (Ret tt, t') /\
       data t' = data t /\ changed t' = changed t /\
       action t' = action t /\ log t' = log t ++ [EvRebuild]) /\
  ((forall h, h ∈ upd -> h ∉ data t) ->
     citation_update upd t = (Ret tt, t)).
Proof.
  induction upd as [|h rest [IHy IHn]]; split.
  - by intros (h & ?%not_elem_of_nil & _).
  - done.
  - intros (h' & Hin & Hd). cbn [citation_update].
    unfold mbind, M_bind, bind, get. case_decide as Hh.
    + destruct (emit_run EvRebuild t) as (t' & Et & ? & ? & ? & ? & ?).
      by exists t'.
    + apply IHy. exists h'. split; [|done].
      apply elem_of_cons in Hin as [->|]; by try done.
  - intros Hnone. cbn [citation_update].
    unfold mbind, M_bind, bind, get. case_decide as Hh.
    + destruct (Hnone h); [by left|done].
    + apply IHn. intros h' Hin. apply Hnone. by right.
Qed.

(** *** What the handlers leave alone *)

(** A guarded editor call keeps the handle list whatever the constructor
    does, provided its handler does. *)
Lemma guarded_editor_data (env : environment)
    (req : option string -> editor_request) (handler : M tab unit)
    (t : tab) :
  (forall t0, data (handler t0).2 = data t0) ->
  data (try_except_WindowActiveError
          (ct ← get callertitle; open_editor env (req ct)) handler t).2 =
  data t.
Proof.
  intros Hh. rewrite guarded_editor_run.
  destruct (EditCitation env (req (callertitle t))) as [|[]];
    first [done | apply Hh].
Qed.

(** No button and no drop changes the handle list, whatever the selector,
    the database and the editor do: handles come in through
    [object_added] and go out through [citation_delete] only. *)
Theorem handlers_keep_data (env : environment) (t : tab) :
  data (add_button_clicked env t).2 = data t /\
  data (edit_button_clicked env t).2 = data t /\
  data (clone_button_clicked env t).2 = data t /\
  data (share_button_clicked env t).2 = data t /\
  (forall h, data (_handle_drag env h t).2 = data t) /\
  (forall h, data (handle_extra_type env h t).2 = data t) /\
  (forall upd, data (citation_update upd t).2 = data t).
Proof.
  split; [|split; [|split; [|split; [|split; [|split]]]]].
  - unfold add_button_clicked. by apply guarded_editor_data.
  - unfold edit_button_clicked.
    destruct (get_selected env) as [h|]; [|done].
    destruct (truthy_handle (Some h)); [|done].
    unfold mbind at 1, M_bind at 1, bind, lift.
    destruct (get_citation_from_handle env h); [|done].
    by apply guarded_editor_data.
  - unfold clone_button_clicked.
    destruct (get_selected env) as [h|]; [|done].
    destruct (truthy_handle (Some h)); [|done].
    unfold mbind at 1, M_bind at 1, bind at 1, lift at 1.
    destruct (get_citation_from_handle env h) as [c|]; [|done].
    unfold_tab_calls.
    destruct (prepare_clone env c) as [[c' s]|[]]; cbn; try done.
    by destruct (EditCitation env _) as [|[]].
  - unfold share_button_clicked.
    destruct (sel_run env) as [|s|c|[]]; cbn [truthy is_source is_citation];
      try done; by apply guarded_editor_data.
  - intros [h|]; [|done]. unfold _handle_drag.
    destruct (truthy_handle (Some h)); [|done].
    unfold mbind at 1, M_bind at 1, bind, lift.
    destruct (get_citation_from_handle env h) as [o|]; [|done].
    destruct (is_citation o); [|done]. by apply guarded_editor_data.
  - intros [h|]; [|done]. unfold handle_extra_type.
    destruct (truthy_handle (Some h)); [|done].
    unfold mbind at 1, M_bind at 1, bind, lift.
    destruct (get_source_from_handle env h) as [o|]; [|done].
    destruct (is_source o); [|done]. by apply guarded_editor_data.
  - intros upd. induction upd as [|h rest IH]; [done|].
    cbn [citation_update]. unfold mbind, M_bind, bind, get.
    by case_decide.
Qed.

(** Only [WindowActiveError] is handled.  When the [EditCitation] call a
    flow makes raises any other exception, whatever the constructor does on
    other requests, the flow raises that exception, with the tab untouched
    and no warning shown. *)
Theorem other_exceptions_propagate (env : environment) (t : tab) (e : exn) :
  e <> WindowActiveError ->
  (EditCitation env (request_new (ObjSource None) (callertitle t)) =
     Raise e ->
   add_button_clicked env t = (Raise e, t)) /\
  (is_source (sel_run env) = true ->
   EditCitation env (request_new (sel_run env) (callertitle t)) = Raise e ->
   share_button_clicked env t = (Raise e, t)) /\
  (is_citation (sel_run env) = true ->
   EditCitation env (request_existing (sel_run env) (callertitle t)) =
     Raise e ->
   share_button_clicked env t = (Raise e, t)) /\
  (forall h c,
     get_selected env = Some h -> truthy_handle (Some h) = true ->
     get_citation_from_handle env h = Ret c ->
     EditCitation env (request_edit c (callertitle t)) = Raise e ->
     edit_button_clicked env t = (Raise e, t)) /\
  (forall h c,
     truthy_handle (Some h) = true ->
     get_citation_from_handle env h = Ret c -> is_citation c = true ->
     EditCitation env (request_existing c (callertitle t)) = Raise e ->
     _handle_drag env (Some h) t = (Raise e, t)) /\
  (forall h c,
     truthy_handle (Some h) = true ->
     get_source_from_handle env h = Ret c -> is_source c = true ->
     EditCitation env (request_new c (callertitle t)) = Raise e ->
     handle_extra_type env (Some h) t = (Raise e, t)).
Proof.
  intros Hne.
  assert (Hrun : forall req handler,
            EditCitation env (req (callertitle t)) = Raise e ->
            try_except_WindowActiveError
              (ct ← get callertitle; open_editor env (req ct)) handler t =
            (Raise e, t)).
  { intros req handler Fails. rewrite guarded_editor_run, Fails.
    by destruct e. }
  unfold request_new, request_existing, request_edit.
  split; [|split; [|split; [|split; [|split]]]].
  - intros Fails. unfold add_button_clicked.
    by apply (Hrun (fun ct => {| ed_citation := _; ed_source := _;
                                 ed_callback := _; ed_callertitle := ct |})).
  - unfold share_button_clicked.
    destruct (sel_run env) as [|s|c|b]; try done.
    intros _ Fails. cbn [truthy is_source is_citation].
    by apply (Hrun (fun ct => {| ed_citation := _; ed_source := _;
                                 ed_callback := _; ed_callertitle := ct |})).
  - unfold share_button_clicked.
    destruct (sel_run env) as [|s|c|b]; try done.
    intros _ Fails. cbn [truthy is_source is_citation].
    by apply (Hrun (fun ct => {| ed_citation := _; ed_source := _;
                                 ed_callback := _; ed_callertitle := ct |})).
  - intros h c Hs Hh Hc Fails. unfold edit_button_clicked. rewrite Hs, Hh.
    rewrite (bind_run _ _ t t c) by (unfold lift; by rewrite Hc).
    by apply (Hrun (fun ct => {| ed_citation := _; ed_source := _;
                                 ed_callback := _; ed_callertitle := ct |})).
  - intros h c Hh Hc Hk Fails. unfold _handle_drag. rewrite Hh.
    rewrite (bind_run _ _ t t c) by (unfold lift; by rewrite Hc).
    rewrite Hk.
    by apply (Hrun (fun ct => {| ed_citation := _; ed_source := _;
                                 ed_callback := _; ed_callertitle := ct |})).
  - intros h c Hh Hc Hk Fails. unfold handle_extra_type. rewrite Hh.
    rewrite (bind_run _ _ t t c) by (unfold lift; by rewrite Hc).
    rewrite Hk.
    by apply (Hrun (fun ct => {| ed_citation := _; ed_source := _;
                                 ed_callback := _; ed_callertitle := ct |})).
Qed.

(** The clone flow notes its action before it asks for the editor: when
    the [EditCitation] call on the copy and its source raises
    [WindowActiveError], whatever the constructor does on other requests,
    the flow returns with [action = 'Citation-Clone'] and nothing else
    changed. *)
Theorem clone_abort_keeps_action (env : environment) (t : tab)
    (h : handle) (c citation source : gobject) :
  get_selected env = Some h -> truthy_handle (Some h) = true ->
  get_citation_from_handle env h = Ret c ->
  prepare_clone env c = Ret (citation, source) ->
  EditCitation env (request_clone citation source (callertitle t)) =
    Raise WindowActiveError ->
  clone_button_clicked env t =
    (Ret tt, {| data := data t; callertitle := callertitle t;
                changed := changed t; action := Some "Citation-Clone";
                log := log t |}).
Proof.
  unfold request_clone.
  intros Hs Hh Hc Hp Busy. unfold clone_button_clicked. rewrite Hs, Hh.
  rewrite (bind_run _ _ t t c) by (unfold lift; by rewrite Hc).
  unfold_tab_calls. rewrite Hp. cbn. by rewrite Busy.
Qed.

(** *** Selection and merge *)

Section Merge.

Variable env : environment.
Variable MergeCitation : handle -> handle -> outcome unit.

(** [merge_button_clicked] does nothing at all unless exactly two handles
    are selected; two equal handles give the warning and nothing else;
    two different ones mark the tab changed, note the action and open the
    merge dialog on them, in the order of the selection.  An exception of
    the merge dialog, [WindowActiveError] included, leaves the handler,
    with the tab already marked. *)
Theorem merge_button_cases (v : view) :
  (length (selected_list v) <> 2%nat ->
     merge_button_clicked env MergeCitation v = (Ret tt, v)) /\
  (forall a, selected_list v = [a; a] ->
     exists v',
       merge_button_clicked env MergeCitation v = (Ret tt, v') /\
       merges v' = merges v /\
       changed (tab_of v') = changed (tab_of v) /\
       action (tab_of v') = action (tab_of v) /\
       log (tab_of v') =
         log (tab_of v) ++
         [EvWarningDialog
            (gettext env "Cannot merge this references")
            (gettext env "This is one event, but with different roles.")]) /\
  (forall a b, selected_list v = [a; b] -> a <> b ->
     exists v',
       merge_button_clicked env MergeCitation v =
         (match MergeCitation a b with
          | Ret _ => Ret tt
          | Raise e => Raise e
          end, v') /\
       changed (tab_of v') = true /\
       action (tab_of v') = Some "Citation-Merge" /\
       log (tab_of v') = log (tab_of v) /\
       data (tab_of v') = data (tab_of v) /\
       merges v' =
         match MergeCitation a b with
         | Ret _ => merges v ++ [(a, b)]
         | Raise _ => merges v
         end).
Proof.
  unfold merge_button_clicked. repeat split.
  - intros L. by destruct (selected_list v) as [|a [|b [|c l]]].
  - intros a ->. rewrite decide_True by done. eexists.
    split; [reflexivity|]. by cbn.
  - intros a b -> Hne. rewrite decide_False by done.
    unfold mbind, M_bind, bind, on_tab, lift, record_merge. cbn.
    destruct (MergeCitation a b); eexists; by repeat split.
Qed.

(** After a selection change (with [dirty_selection] off) the buttons and
    the merge handler agree: the merge button is made sensitive only when
    two rows were picked, and then the handler warns or merges; when rows
    were picked and the button is insensitive, the handler does nothing.
    The edit and merge buttons are never both made sensitive.  When no row
    was picked the buttons stay as they were, and the handler does nothing
    whatever the merge button shows. *)
Theorem selection_then_merge (rows : list (option handle)) (v : view) :
  dirty_selection v = false ->
  exists v',
    _selection_changed rows v = (Ret tt, v') /\
    selected_list v' = omap id rows /\
    tab_of v' = tab_of v /\
    (omap id rows <> [] ->
       edit_btn v' = bool_decide (length (omap id rows) = 1%nat) /\
       clone_btn v' = edit_btn v' /\ del_btn v' = edit_btn v' /\
       merge_btn v' = bool_decide (length (omap id rows) = 2%nat) /\
       edit_btn v' && merge_btn v' = false /\
       (merge_btn v' = true -> exists a b, selected_list v' = [a; b]) /\
       (merge_btn v' = false ->
          merge_button_clicked env MergeCitation v' = (Ret tt, v'))) /\
    (omap id rows = [] ->
       edit_btn v' = edit_btn v /\ clone_btn v' = clone_btn v /\
       del_btn v' = del_btn v /\ merge_btn v' = merge_btn v /\
       merge_button_clicked env MergeCitation v' = (Ret tt, v')).
Proof.
  intros Hd. unfold _selection_changed. rewrite Hd.
  destruct (omap id rows) as [|a [|b [|c l]]] eqn:E;
    (eexists; split; [reflexivity|]); cbn;
    repeat split; try done.
  by exists a, b.
Qed.

End Merge.

End CitationEmbedListMoreSpec.

(** ** Utilities *)

Module UtilsSpec.
Import Utils.

Lemma append_assoc (a b c : string) : (a +:+ b) +:+ c = a +:+ (b +:+ c).
Proof.
  induction a as [|x a IH]; [done|].
  change (String x ((a +:+ b) +:+ c) = String x (a +:+ (b +:+ c))).
  by rewrite IH.
Qed.

Lemma append_empty_r (a : string) : a +:+ "" = a.
Proof.
  induction a as [|x a IH]; [done|].
  change (String x (a +:+ "") = String x a). by rewrite IH.
Qed.

Lemma append_empty_iff (a b : string) : a +:+ b = "" <-> a = "" /\ b = "".
Proof.
  destruct a; [|split; [done|by intros [? _]]].
  change ("" +:+ b) with b. split; [done|by intros [_ ?]].
Qed.

(** *** Detail text and flags *)

Section Details.

Context {R : Type}.
Variable gettext : string -> string.

(** When the labels for a note and for sources are not empty, the detail
    text is the labels of the details present, in the order note, source,
    private, joined by a comma and a space. *)
Theorem get_detail_text_join (obj : detailed R) :
  gettext "Note" <> "" ->
  gettext "Source" <> "" ->
  get_detail_text gettext obj = join ", " (detail_labels gettext obj).
Proof.
  intros Hn Hs. unfold get_detail_text, detail_labels.
  destruct (decide (getNote obj <> "")),
    (decide (0 < length (getSourceRefList obj))%nat),
    (decide (getPrivacy obj = 1%Z)); cbn [app join];
    repeat case_decide; try done;
    repeat match goal with
      | H : _ +:+ _ = "" |- _ => apply append_empty_iff in H as [? ?]
      end; try done.
  by rewrite append_assoc.
Qed.

(** With [show_detail] off there are no flags.  With it on the flags are
    the letters [N] for a note, [S] for sources and [P] for a privacy value
    other than 0, in this order.  The text calls a record private only for
    the privacy value 1: for any other value it is the text of the record
    with privacy 0, and for 1 it is that text with the label for "Private"
    added.  So there is one flag letter per detail of the text, except that
    a privacy value other than 0 and 1 gets the flag [P] while the text
    does not call the record private. *)
Theorem detail_flags_and_text (obj : detailed R) :
  get_detail_flags false obj = "" /\
  get_detail_flags true obj =
    (if decide (getNote obj <> "") then "N" else "") +:+
    (if decide (0 < length (getSourceRefList obj))%nat then "S" else "") +:+
    (if decide (getPrivacy obj <> 0%Z) then "P" else "") /\
  (getPrivacy obj <> 1%Z ->
     get_detail_text gettext obj =
       get_detail_text gettext (with_privacy 0 obj)) /\
  (getPrivacy obj = 1%Z ->
     get_detail_text gettext obj =
       if decide (get_detail_text gettext (with_privacy 0 obj) = "")
       then gettext "Private"
       else get_detail_text gettext (with_privacy 0 obj) +:+ ", " +:+
            gettext "Private") /\
  String.length (get_detail_flags true obj) =
    (length (detail_labels gettext obj) +
     (if decide (getPrivacy obj <> 0%Z /\ getPrivacy obj <> 1%Z)
      then 1 else 0))%nat.
Proof.
  split; [done|]. split; [|split; [|split]].
  - unfold get_detail_flags.
    by destruct (decide (getNote obj <> "")),
      (decide (0 < length (getSourceRefList obj))%nat),
      (decide (getPrivacy obj <> 0%Z)).
  - intros Hp. unfold get_detail_text, with_privacy.
    cbn [getNote getSourceRefList getPrivacy].
    rewrite (decide_False (P := getPrivacy obj = 1%Z)) by done.
    by rewrite (decide_False (P := 0%Z = 1%Z)) by done.
  - intros Hp. unfold get_detail_text, with_privacy.
    cbn [getNote getSourceRefList getPrivacy].
    rewrite (decide_True (P := getPrivacy obj = 1%Z)) by done.
    by rewrite (decide_False (P := 0%Z = 1%Z)) by done.
  - unfold get_detail_flags, detail_labels.
    destruct (decide (getNote obj <> "")),
      (decide (0 < length (getSourceRefList obj))%nat),
      (decide (getPrivacy obj = 1%Z)) as [E|E],
      (decide (getPrivacy obj <> 0%Z));
      case_decide; try done; try (exfalso; lia); exfalso; tauto.
Qed.

End Details.

(** *** Deleting the selected row *)

(** [delete_selected]: with nothing selected the list stays and 0 is
    returned; otherwise only the first selected row counts.  A row inside
    the list is cut out, the elements before and after keeping their order,
    and 1 is returned; a row past the end raises [IndexError] with the list
    unchanged; a negative row counts from the end. *)
Theorem delete_selected_bounds {A} (l : list A) :
  delete_selected [] l = (Ret 0%Z, l) /\
  (forall (i : Z) rest, (0 <= i < Z.of_nat (length l))%Z ->
     delete_selected (i :: rest) l =
       (Ret 1%Z, take (Z.to_nat i) l ++ drop (Datatypes.S (Z.to_nat i)) l) /\
     length (delete_selected (i :: rest) l).2 = (length l - 1)%nat) /\
  (forall (i : Z) rest, (Z.of_nat (length l) <= i)%Z ->
     delete_selected (i :: rest) l = (Raise (OtherError "IndexError"), l)) /\
  (forall (i : Z) rest, (- Z.of_nat (length l) <= i < 0)%Z ->
     delete_selected (i :: rest) l =
       (Ret 1%Z, delete (Z.to_nat (i + Z.of_nat (length l))) l)) /\
  (forall (i : Z) rest, (i < - Z.of_nat (length l))%Z ->
     delete_selected (i :: rest) l = (Raise (OtherError "IndexError"), l)).
Proof.
  split; [done|]. unfold delete_selected, py_del_item.
  split; [|split; [|split]].
  - intros i rest Hi. destruct (decide (i < 0)%Z); [lia|].
    rewrite decide_True by lia. rewrite delete_take_drop.
    split; [done|]. cbn [snd].
    rewrite length_app, length_take, length_drop. lia.
  - intros i rest Hi. destruct (decide (i < 0)%Z); [lia|].
    by rewrite decide_False by lia.
  - intros i rest Hi. destruct (decide (i < 0)%Z); [|lia].
    by rewrite decide_True by lia.
  - intros i rest Hi. destruct (decide (i < 0)%Z); [|lia].
    by rewrite decide_False by lia.
Qed.

(** *** MIME lookups *)

Section Mime.

Variable get_keys : string -> list string.
Variable get_value : string -> string -> string.
Variable split : string -> list string.
Variable isfile : string -> bool.
Variable pixmap_nautilus : string.

(** After the loop each variable holds the command of its key when the
    key occurs, and what it held before otherwise. *)
Lemma pick_command_fold (ty : string) (keys : list string)
    (p o e : command) :
  fold_left (pick_command get_value split ty) keys (p, o, e) =
    (if decide ("view" ∈ keys)
     then Command (split (get_value ty "view")) else p,
     if decide ("open" ∈ keys)
     then Command (split (get_value ty "open")) else o,
     if decide ("edit" ∈ keys)
     then Command (split (get_value ty "edit")) else e).
Proof using get_value split.
  clear get_keys isfile pixmap_nautilus. revert p o e. induction keys as [|k keys IH]; intros p o e.
  - cbn. by rewrite !decide_False by apply not_elem_of_nil.
  - cbn [fold_left pick_command]. rewrite IH.
    repeat f_equal.
    all: destruct (decide (k = _)) as [->|Hk].
    all: repeat case_decide; try done.
    all: rewrite elem_of_cons in *; intuition congruence.
Qed.

(** The words of a command line with each [%f] replaced by the path. *)
Abbreviation arguments ph ws :=
  ((fun val => if decide (val = "%f") then getPath ph else val) <$> ws).

(** Which command [view_photo] runs.  The [open] command when the type has
    one; the [edit] command when it has neither [open] nor [view]; nothing
    at all (an empty argument list, on which the child's [args[0]] raises)
    when it has [view] but no [open]; the warning when it has none of the
    three. *)
Theorem view_photo_cases (ph : photo) :
  let ty := getMimeType ph in
  let keys := get_keys ty in
  ("open" ∈ keys ->
     view_photo get_keys get_value split ph =
       Forked (arguments ph (split (get_value ty "open")))) /\
  ("open" ∉ keys -> "view" ∈ keys ->
     view_photo get_keys get_value split ph = Forked [] /\
     execvp_call [] = Raise (OtherError "IndexError")) /\
  ("open" ∉ keys -> "view" ∉ keys -> "edit" ∈ keys ->
     view_photo get_keys get_value split ph =
       Forked (arguments ph (split (get_value ty "edit")))) /\
  ("open" ∉ keys -> "view" ∉ keys -> "edit" ∉ keys ->
     view_photo get_keys get_value split ph =
       CannotView ("Sorry, I cannot find a viewer for " +:+ ty +:+ " type")).
Proof.
  intros ty keys. unfold view_photo. fold ty. fold keys.
  rewrite pick_command_fold.
  repeat split; intros; repeat case_decide; try done.
Qed.

(** *** Icons *)

Lemma pick_icon_fold (mtype : string) (keys : list string)
    (i n : option string) :
  fold_left (pick_icon get_value mtype) keys (i, n) =
    (if decide ("icon-filename" ∈ keys)
     then Some (get_value mtype "icon-filename") else i,
     if decide ("icon_filename" ∈ keys)
     then Some (get_value mtype "icon_filename") else n).
Proof using get_value.
  clear get_keys isfile pixmap_nautilus split.
  revert i n. induction keys as [|k keys IH]; intros i n.
  - cbn. by rewrite !decide_False by apply not_elem_of_nil.
  - cbn [fold_left]. unfold pick_icon at 2.
    destruct (decide (k = "icon-filename")) as [->|Hk1];
      [|destruct (decide (k = "icon_filename")) as [->|Hk2]];
      rewrite IH; f_equal; repeat case_decide; try done;
      rewrite elem_of_cons in *; intuition congruence.
Qed.

(** [find_icon], case by case.  With a non-empty [icon_filename] value the
    nautilus pixmap path is tried, then the same path with [.png] added;
    the first of the two that is a file is the result.  Otherwise the
    result is the value of [icon-filename] when the type has that key, and
    the empty string when it has not.  So a non-empty result is one of the
    two nautilus paths, and then a file, or the value of [icon-filename];
    an existing nautilus pixmap wins over [icon-filename]. *)
Theorem find_icon_result (mtype : string) :
  let keys := get_keys mtype in
  let nicon := get_value mtype "icon_filename" in
  let icon := get_value mtype "icon-filename" in
  let p := pixmap_nautilus +:+ "/" +:+ nicon in
  let result := find_icon get_keys get_value isfile pixmap_nautilus mtype in
  ("icon_filename" ∈ keys -> nicon <> "" -> isfile p = true ->
     result = p) /\
  ("icon_filename" ∈ keys -> nicon <> "" -> isfile p = false ->
   isfile (p +:+ ".png") = true ->
     result = p +:+ ".png") /\
  ("icon_filename" ∉ keys \/ nicon = "" \/
   (isfile p = false /\ isfile (p +:+ ".png") = false) ->
     ("icon-filename" ∈ keys -> result = icon) /\
     ("icon-filename" ∉ keys -> result = "")) /\
  ("icon-filename" ∉ keys -> "icon_filename" ∉ keys -> result = "") /\
  (result <> "" ->
     ("icon_filename" ∈ keys /\ nicon <> "" /\ isfile result = true /\
      (result = p \/ result = p +:+ ".png")) \/
     ("icon-filename" ∈ keys /\ result = icon)).
Proof.
  intros keys nicon icon p result.
  assert (Hres : result =
    let fallback :=
      if decide ("icon-filename" ∈ keys)
      then (if decide (icon <> "") then icon else "") else "" in
    if decide ("icon_filename" ∈ keys) then
      if decide (nicon <> "") then
        if isfile p then p
        else if isfile (p +:+ ".png") then p +:+ ".png" else fallback
      else fallback
    else fallback).
  { subst result. unfold find_icon. fold keys. rewrite pick_icon_fold.
    fold icon nicon. cbn zeta.
    destruct (decide ("icon-filename" ∈ keys)),
      (decide ("icon_filename" ∈ keys));
      cbn [truthy_string default from_option id];
      repeat case_bool_decide; repeat case_decide; try done. }
  clearbody result. cbn zeta in Hres.
  assert (Hfb : forall x,
            x = (if decide ("icon-filename" ∈ keys)
                 then (if decide (icon <> "") then icon else "") else "") ->
            ("icon-filename" ∈ keys -> x = icon) /\
            ("icon-filename" ∉ keys -> x = "")).
  { intros x ->. split; intros Hk.
    - rewrite decide_True by done.
      destruct (decide (icon <> "")) as [Hi|Hi]; [done|].
      destruct (decide (icon = "")) as [E|E]; [by rewrite E|by destruct Hi].
    - by rewrite decide_False. }
  split; [|split; [|split; [|split]]].
  - intros Hk Hn Hf. rewrite Hres.
    rewrite decide_True by done. rewrite decide_True by done.
    by rewrite Hf.
  - intros Hk Hn Hf Hf2. rewrite Hres.
    rewrite decide_True by done. rewrite decide_True by done.
    by rewrite Hf, Hf2.
  - intros Hc. apply Hfb. rewrite Hres.
    destruct (decide ("icon_filename" ∈ keys)) as [Hk|Hk]; [|done].
    destruct (decide (nicon <> "")) as [Hn|Hn]; [|done].
    destruct Hc as [?|[?|[Hf Hf2]]]; [done|done|].
    by rewrite Hf, Hf2.
  - intros Hi Hk. apply Hfb; [|done]. rewrite Hres.
    by rewrite (decide_False (P := "icon_filename" ∈ keys)) by done.
  - intros Hne.
    assert (Hback : result =
              (if decide ("icon-filename" ∈ keys)
               then (if decide (icon <> "") then icon else "") else "") ->
            "icon-filename" ∈ keys /\ result = icon).
    { intros Hr. destruct (decide ("icon-filename" ∈ keys)) as [Hk|Hk].
      - split; [done|]. by apply (Hfb result Hr).
      - destruct Hne. by apply (Hfb result Hr). }
    rewrite Hres in Hback |- *.
    destruct (decide ("icon_filename" ∈ keys)) as [Hk|Hk];
      [|right; by apply Hback].
    destruct (decide (nicon <> "")) as [Hn|Hn]; [|right; by apply Hback].
    destruct (isfile p) eqn:Hf; [left; repeat split; auto|].
    destruct (isfile (p +:+ ".png")) eqn:Hf2; [left; repeat split; auto|].
    right. by apply Hback.
Qed.

End Mime.

(** The command of the [view] key is never the one run: two MIME
    databases that differ only in the value of [view] give the same
    outcome. *)
Theorem view_photo_ignores_view (get_keys : string -> list string)
    (get_value get_value' : string -> string -> string)
    (split : string -> list string) (ph : photo) :
  (forall ty k, k <> "view" -> get_value' ty k = get_value ty k) ->
  view_photo get_keys get_value' split ph =
  view_photo get_keys get_value split ph.
Proof.
  intros Hsame. unfold view_photo. rewrite !pick_command_fold.
  rewrite !(Hsame _ "open"), !(Hsame _ "edit") by done.
  by repeat case_decide.
Qed.

(** *** Text completion *)

Lemma prefix_iff (a b : string) :
  String.prefix a b = true <-> exists r, b = a +:+ r.
Proof.
  revert b. induction a as [|x a IH]; intros b.
  - split; [by exists b|by destruct b].
  - destruct b as [|y b]; cbn; [split; [done|by intros [r ?]]|].
    destruct (Ascii.ascii_dec x y) as [->|Hne].
    + rewrite IH. split; intros [r Hr]; exists r; [by rewrite Hr|].
      by injection Hr.
    + split; [done|]. intros [r Hr]. by injection Hr.
Qed.

Lemma py_find_zero_iff (s sub : string) :
  py_find s sub = 0%Z <-> exists r, s = sub +:+ r.
Proof.
  rewrite <- prefix_iff. unfold py_find.
  destruct s as [|y s]; cbn [String.index].
  - destruct sub; cbn; split; done.
  - destruct (String.prefix sub (String y s)); [done|].
    destruct (String.index 0 sub s); split; try done; lia.
Qed.

Lemma substring_is_prefix (n : nat) (s : string) :
  exists r, s = String.substring 0 n s +:+ r.
Proof.
  revert s. induction n as [|n IH]; intros s.
  - exists s. by destruct s.
  - destruct s as [|c s]; [by exists ""|].
    destruct (IH s) as [r Hr]. exists r.
    change (String c s = String c (String.substring 0 n s +:+ r)).
    by rewrite <- Hr.
Qed.

Lemma rstrip_is_prefix (s : string) : exists r, s = rstrip s +:+ r.
Proof.
  induction s as [|c s [r Hr]]; [by exists ""|]. cbn [rstrip].
  case_decide as E.
  - destruct (whitespace c); [by exists (String c s)|].
    exists s. done.
  - exists r. change (String c s = String c (rstrip s +:+ r)).
    by rewrite <- Hr.
Qed.

(** Cutting the identifier only shortens a label: what is left is its
    beginning. *)
Lemma strip_id_is_prefix (label_text : string) :
  exists r, label_text = strip_id label_text +:+ r.
Proof.
  unfold strip_id. case_decide; [|by exists ""; rewrite append_empty_r].
  destruct (substring_is_prefix
              (Z.to_nat (py_rfind_char (Ascii.ascii_of_nat 91) label_text))
              label_text) as [r1 H1].
  destruct (rstrip_is_prefix
              (String.substring 0
                 (Z.to_nat (py_rfind_char (Ascii.ascii_of_nat 91) label_text))
                 label_text)) as [r2 H2].
  exists (r2 +:+ r1). rewrite <- append_assoc, <- H2. exact H1.
Qed.

Section Completion.

Variable lower : string -> string.

(** What the walk over the labels proposes is the beginning of a label of
    the list, and the typed text is, up to case, a proper beginning of
    it. *)
Lemma completion_Some (typed_lc : string) (labels : list string)
    (text : string) :
  completion lower typed_lc labels = Some text ->
  (exists l r, l ∈ labels /\ l <> "" /\ text = strip_id l /\
               l = text +:+ r) /\
  (exists r, lower text = typed_lc +:+ r) /\
  lower text <> typed_lc.
Proof.
  induction labels as [|l labels IH]; [done|]. cbn [completion].
  assert (Hrest : completion lower typed_lc labels = Some text ->
    (exists l0 r, l0 ∈ l :: labels /\ l0 <> "" /\ text = strip_id l0 /\
                  l0 = text +:+ r) /\
    (exists r, lower text = typed_lc +:+ r) /\ lower text <> typed_lc).
  { intros E. destruct (IH E) as ((l0 & r & Hin & ?) & ?).
    split; [|done]. exists l0, r. split; [by right|done]. }
  case_decide as Hl; [exact Hrest|].
  case_decide as Heq; [done|].
  case_decide as Hfind; [|exact Hrest].
  intros [= <-]. split; [|split].
  - destruct (strip_id_is_prefix l) as [r Hr].
    exists l, r. split; [by left|done].
  - by apply py_find_zero_iff.
  - done.
Qed.

(** The completion callback keeps the labels and the stored timer.  It
    leaves the entry alone when nothing is typed; it touches the entry only
    to put the beginning of one of the labels there, of which the typed
    text is, up to case, a proper beginning; the cursor then sits after
    the typed characters and the rest is selected. *)
Theorem combo_timer_callback_completes (c : combo) :
  let c' := combo_timer_callback lower c in
  labels c' = labels c /\ timer c' = timer c /\
  (entry_text c = "" -> entry_text c' = "" /\ position c' = position c /\
                        region c' = region c) /\
  ((entry_text c' = entry_text c /\ position c' = position c /\
    region c' = region c) \/
   ((exists l r, l ∈ labels c /\ l <> "" /\ entry_text c' = strip_id l /\
                 l = entry_text c' +:+ r) /\
    (exists r, lower (entry_text c') = lower (entry_text c) +:+ r) /\
    lower (entry_text c') <> lower (entry_text c) /\
    position c' = String.length (entry_text c) /\
    region c' = Some (String.length (entry_text c), (-1)%Z))).
Proof.
  unfold combo_timer_callback.
  destruct (decide (entry_text c = "")) as [E|E];
    [by repeat split; auto|].
  destruct (completion lower (lower (entry_text c)) (labels c)) as [text|]
    eqn:Ec; [|by repeat split; auto].
  cbn. repeat split; try done.
  destruct (completion_Some _ _ _ Ec) as (? & ? & ?).
  right. by repeat split.
Qed.

End Completion.

End UtilsSpec.

(** ** The further properties on the samples *)

Module MoreWitness.
Import Attribute Components ComponentsSpec Samples MoreSamples.
Import AttributeSpec AttributeMoreSpec.
Import CitationEmbedList CitationEmbedListView CitationEmbedListMoreSpec.
Import Utils UtilsSpec.

Lemma copy_shares_type_witness :
  store0 !! 2%positive = Some (OAttribute attr0) /\
  store0 !! type attr0 = Some (OAttributeType type0) /\
  type_set type0 (PyInt 7) = Ret type7 /\
  exists (l : loc) h1 h2,
    __init__ (NoteBase := NoteBase) (Some 2%positive) store0 = (Ret l, h1) /\
    set_type l (PyInt 7) h1 = (Ret tt, h2) /\
    h2 !! 2%positive = Some (OAttribute attr0) /\
    h2 !! type attr0 = Some (OAttributeType type7).
Proof.
  do 3 (split; [reflexivity|]).
  exact (copy_shares_type (NoteBase := NoteBase) store0 2%positive attr0
           type0 (PyInt 7) type7 eq_refl eq_refl eq_refl).
Defined.

Lemma defaults_do_not_share_witness :
  type_set type_new (PyInt 7) = Ret type7 /\
  exists (l1 l2 : loc) h1 h2 h3,
    __init__ (NoteBase := NoteBase) None store0 = (Ret l1, h1) /\
    __init__ (NoteBase := NoteBase) None h1 = (Ret l2, h2) /\
    set_type l2 (PyInt 7) h2 = (Ret tt, h3) /\
    l1 <> l2 /\
    fields h3 l1 =
      Some (false, [], [], {| val := 0; custom := "" |}, PyStr "") /\
    fields h3 l2 = Some (false, [], [], type7, PyStr "").
Proof.
  split; [reflexivity|].
  exact (defaults_do_not_share (NoteBase := NoteBase) store0 (PyInt 7) type7
           eq_refl).
Defined.

Lemma unserialize_partial_update_witness :
  store0 !! 2%positive = Some (OAttribute attr0) /\
  store0 !! type attr0 = Some (OAttributeType type0) /\
  base_unserialize (private attr0) (PyInt 1) = Raise TypeError /\
  unserialize (NoteBase := NoteBase) 2%positive
    (PyTuple [PyInt 1; PyList []; PyList []; PyTuple [PyInt 3; PyStr ""];
              PyStr "red"]) store0 =
    (Raise TypeError,
     <[2%positive := OAttribute (with_value attr0 (PyStr "red"))]> store0).
Proof.
  do 3 (split; [reflexivity|]).
  exact (proj1 (unserialize_partial_update (NoteBase := NoteBase) store0
                  2%positive attr0 type0 (PyInt 1) (PyList []) (PyList [])
                  (PyTuple [PyInt 3; PyStr ""]) (PyStr "red") TypeError
                  eq_refl eq_refl) eq_refl).
Defined.

Lemma set_value_only_value_witness :
  store0 !! 2%positive = Some (OAttribute attr0) /\
  store0 !! type attr0 = Some (OAttributeType type0) /\
  exists h',
    set_value 2%positive (PyStr "red") store0 = (Ret tt, h') /\
    serialize (NoteBase := NoteBase) 2%positive h' =
      (Ret (PyTuple [PyBool true; PyList [PyStr "C0001"];
                     PyList [PyStr "N0001"; PyStr "N0002"];
                     PyTuple [PyInt 3; PyStr ""]; PyStr "red"]), h') /\
    get_text_data_list 2%positive h' = (Ret [PyStr "red"], h') /\
    get_text_data_child_list 2%positive h' = (Ret ["C0001"], h') /\
    get_handle_referents 2%positive h' = (Ret ["C0001"], h') /\
    (forall l : loc, l <> 2%positive -> h' !! l = store0 !! l).
Proof.
  do 2 (split; [reflexivity|]).
  exact (set_value_only_value (NoteBase := NoteBase) store0 2%positive attr0
           type0 (PyStr "red") eq_refl eq_refl).
Defined.

Lemma unserialize_into_copy_retypes_source_witness :
  store0 !! 2%positive = Some (OAttribute attr0) /\
  store0 !! type attr0 = Some (OAttributeType type0) /\
  exists (c : loc) h1 h2,
    __init__ (NoteBase := NoteBase) (Some 2%positive) store0 = (Ret c, h1) /\
    unserialize (NoteBase := NoteBase) c
      (PyTuple [PyBool false; PyList []; PyList [PyStr "N0009"];
                PyTuple [PyInt 7; PyStr ""]; PyStr "red"]) h1 =
      (Ret c, h2) /\
    fields h2 c = Some (false, [], ["N0009"], type7, PyStr "red") /\
    fields h2 2%positive =
      Some (true, ["C0001"], ["N0001"; "N0002"], type7, PyStr "blue").
Proof.
  do 2 (split; [reflexivity|]).
  exact (unserialize_into_copy_retypes_source (NoteBase := NoteBase) store0
           2%positive attr0 type0 (PyBool false) (PyList [])
           (PyList [PyStr "N0009"]) (PyTuple [PyInt 7; PyStr ""])
           (PyStr "red") false [] ["N0009"] type7
           eq_refl eq_refl eq_refl eq_refl eq_refl eq_refl).
Defined.

Lemma unserialize_own_serialization_witness :
  is_Some (fields store0 2%positive) /\
  exists d : pyval,
    serialize (NoteBase := NoteBase) 2%positive store0 = (Ret d, store0) /\
    unserialize (NoteBase := NoteBase) 2%positive d store0 =
      (Ret 2%positive, store0).
Proof.
  assert (H2 : is_Some (fields store0 2%positive)) by (eexists; reflexivity).
  split; [exact H2|].
  exact (unserialize_own_serialization
           (PrivacyFaithful := PrivacyBase_faithful)
           (SourceFaithful := SourceBase_faithful)
           (NoteFaithful := NoteBase_faithful)
           (TypeIsFaithful := AttributeType_faithful) store0 2%positive H2).
Defined.

Lemma other_exceptions_propagate_witness :
  OtherError "RuntimeError" <> WindowActiveError /\
  EditCitation env_fussy (request_new (ObjSource None) (callertitle tab0)) =
    Ret tt /\
  EditCitation env_fussy (request_new (sel_run env_fussy) (callertitle tab0)) =
    Raise (OtherError "RuntimeError") /\
  share_button_clicked env_fussy tab0 =
    (Raise (OtherError "RuntimeError"), tab0) /\
  EditCitation env_fussy
    (request_edit (ObjCitation (Some "c1")) (callertitle tab0)) =
    Raise (OtherError "RuntimeError") /\
  edit_button_clicked env_fussy tab0 =
    (Raise (OtherError "RuntimeError"), tab0) /\
  EditCitation env_broken (request_new (ObjSource None) (callertitle tab0)) =
    Raise (OtherError "RuntimeError") /\
  add_button_clicked env_broken tab0 =
    (Raise (OtherError "RuntimeError"), tab0).
Proof.
  assert (Hne : OtherError "RuntimeError" <> WindowActiveError) by done.
  pose proof (other_exceptions_propagate env_fussy tab0 _ Hne)
    as (_ & Hs & _ & He & _).
  pose proof (other_exceptions_propagate env_broken tab0 _ Hne) as (Ha & _).
  split; [exact Hne|]. split; [reflexivity|]. split; [reflexivity|].
  split; [exact (Hs eq_refl eq_refl)|]. split; [reflexivity|].
  split; [exact (He "c1" _ eq_refl eq_refl eq_refl eq_refl)|].
  split; [reflexivity|]. exact (Ha eq_refl).
Defined.

Lemma clone_abort_keeps_action_witness :
  get_selected env_one = Some "c1" /\
  truthy_handle (Some "c1") = true /\
  get_citation_from_handle env_one "c1" = Ret (ObjCitation (Some "c1")) /\
  prepare_clone env_one (ObjCitation (Some "c1")) =
    Ret (ObjCitation (Some "c1"), ObjSource (Some "s1")) /\
  EditCitation env_one
    (request_clone (ObjCitation (Some "c1")) (ObjSource (Some "s1"))
       (callertitle tab0)) = Raise WindowActiveError /\
  EditCitation env_one (request_new (ObjSource None) (callertitle tab0)) =
    Ret tt /\
  clone_button_clicked env_one tab0 =
    (Ret tt, {| data := data tab0; callertitle := callertitle tab0;
                changed := changed tab0; action := Some "Citation-Clone";
                log := log tab0 |}).
Proof.
  do 6 (split; [reflexivity|]).
  exact (clone_abort_keeps_action env_one tab0 "c1" _ _ _
           eq_refl eq_refl eq_refl eq_refl eq_refl).
Defined.

Lemma selection_then_merge_witness :
  dirty_selection view0 = false /\
  exists v',
    _selection_changed [Some "c1"; None; Some "c2"] view0 = (Ret tt, v') /\
    selected_list v' = ["c1"; "c2"] /\
    edit_btn v' = false /\ merge_btn v' = true.
Proof.
  split; [reflexivity|].
  destruct (selection_then_merge env_busy merge_opens
              [Some "c1"; None; Some "c2"] view0 eq_refl)
    as (v' & E & Hs & _ & Hb & _).
  exists v'. split; [exact E|]. split; [exact Hs|].
  destruct (Hb ltac:(done)) as (He & _ & _ & Hm & _).
  split; [exact He|exact Hm].
Defined.

Lemma get_detail_text_join_witness :
  id "Note" <> "" /\ id "Source" <> "" /\
  get_detail_text id noted = "Note, Source, Private".
Proof.
  assert (Hn : id "Note" <> "") by done.
  assert (Hs : id "Source" <> "") by done.
  split; [exact Hn|]. split; [exact Hs|].
  exact (get_detail_text_join id noted Hn Hs).
Defined.

Lemma view_photo_ignores_view_witness :
  (forall ty k, k <> "view" -> mime_value_xv ty k = mime_value ty k) /\
  view_photo mime_keys mime_value_xv py_split jpeg =
  view_photo mime_keys mime_value py_split jpeg.
Proof.
  assert (H : forall ty k, k <> "view" ->
                mime_value_xv ty k = mime_value ty k).
  { intros ty k Hk. unfold mime_value_xv. by rewrite decide_False. }
  split; [exact H|].
  exact (view_photo_ignores_view mime_keys mime_value mime_value_xv py_split
           jpeg H).
Defined.

(** *** The samples, run *)

Example detail_text_of_odd_privacy :
  get_detail_flags true oddly_private = "P" /\
  get_detail_text id oddly_private = "".
Proof. split; reflexivity. Qed.

(** The JPEG type has a viewer and an editor but no [open] entry: nothing
    is left to run. *)
Example jpeg_has_nothing_to_run :
  view_photo mime_keys mime_value py_split jpeg = Forked [].
Proof. reflexivity. Qed.

Example png_is_opened :
  view_photo mime_keys mime_value py_split png =
    Forked ["display"; "/home/me/b.png"].
Proof. reflexivity. Qed.

Example png_icon_from_nautilus :
  find_icon mime_keys mime_value on_disk "/pixmaps/nautilus" "image/png" =
    "/pixmaps/nautilus/png.png".
Proof. reflexivity. Qed.

Example jpeg_icon_from_database :
  find_icon mime_keys mime_value on_disk "/pixmaps/nautilus" "image/jpeg" =
    "/icons/jpeg.png".
Proof. reflexivity. Qed.

Example split_sample :
  py_split "gimp   --new %f" = ["gimp"; "--new"; "%f"].
Proof. reflexivity. Qed.

Example strip_id_sample :
  strip_id "Paris  [P0001]" = "Paris" /\ strip_id "[P0001]" = "[P0001]".
Proof. split; reflexivity. Qed.

(** Typing "par" completes to the first matching place, with the cursor
    after the third character; the pending timer is removed. *)
Example places_completed :
  combo_timer_callback lower_ascii places =
    {| timer := 7; entry_text := "Paris"; position := 3;
       region := Some (3%nat, (-1)%Z);
       labels := [""; "Oslo [P0003]"; "Paris  [P0001]"; "Parma [P0002]"];
       removed_timers := [7%Z] |}.
Proof. vm_compute. reflexivity. Qed.

Example delete_selected_sample :
  delete_selected [1%Z; 0%Z] ["a"; "b"; "c"] = (Ret 1%Z, ["a"; "c"]) /\
  delete_selected [3%Z] ["a"; "b"; "c"] =
    (Raise (OtherError "IndexError"), ["a"; "b"; "c"]).
Proof. split; reflexivity. Qed.

Example merge_sample :
  merge_button_clicked env_busy merge_busy
    {| tab_of := tab0; selected_list := ["c1"; "c2"];
       dirty_selection := false; edit_btn := false; clone_btn := false;
       del_btn := false; merge_btn := true; merges := [] |} =
    (Raise WindowActiveError,
     {| tab_of := {| data := data tab0; callertitle := callertitle tab0;
                     changed := true; action := Some "Citation-Merge";
                     log := [] |};
        selected_list := ["c1"; "c2"];
        dirty_selection := false; edit_btn := false; clone_btn := false;
        del_btn := false; merge_btn := true; merges := [] |}).
Proof. reflexivity. Qed.

End MoreWitness.
